(** * The video annotation overlay of the cricket tracker

    A shallow embedding of [components/VideoAnnotationLayer.tsx] (the overlay
    component, its gesture handlers and its time filter; the source file
    [unnamed/part_009]), of the earlier version
    [.history/components/VideoAnnotationLayer_20250509113500.tsx] (the variant
    with drag-to-move and zoom) and of the handlers of the [Analysis] screen
    that own the annotation list (the source file [unnamed/part_001]),
    followed by the properties of the overlay's specification.  The same
    screen's loop slider, loop handlers, pan-to-zoom and notes, and the
    overlay's [renderAnnotation], are embedded after them, with the
    properties the code itself shows.

    JavaScript numbers are IEEE 754 binary64 values: they are modelled by
    Rocq's primitive floats, so [a - b], [Math.abs], [Math.sqrt] and [<] are
    the operations the program runs.  JavaScript strings are sequences of
    UTF-16 code units.  React state is threaded explicitly: a handler is a
    function from the props and the component's state to the new state and
    the callbacks it fires; every handler runs to completion and the
    component is rendered again before the next event, so a handler reads
    what the previous one wrote (an [await] inside a handler is not a
    scheduling point of the model). *)

From Stdlib Require Import List Bool NArith ZArith String Ascii Lia.
From Stdlib Require Import DecimalN.
From Stdlib Require Import Floats.
Import ListNotations.

(** ** JavaScript strings *)

Module JSString.

(** A string is its sequence of UTF-16 code units. *)
Definition t := list N.

(** The code units [String.prototype.trim] strips: ECMAScript's WhiteSpace
    and LineTerminator productions (all of them in the basic plane). *)
Definition isWhiteSpace (c : N) : bool :=
  ((9 <=? c) && (c <=? 13) || (c =? 32) || (c =? 160) || (c =? 5760)
   || (8192 <=? c) && (c <=? 8202) || (c =? 8232) || (c =? 8233)
   || (c =? 8239) || (c =? 8287) || (c =? 12288) || (c =? 65279))%N.

Fixpoint trimStart (s : t) : t :=
  match s with
  | [] => []
  | c :: r => if isWhiteSpace c then trimStart r else s
  end.

Definition trimEnd (s : t) : t := rev (trimStart (rev s)).

Definition trim (s : t) : t := trimEnd (trimStart s).

(** ToBoolean on a string: the empty string is the only falsy one. *)
Definition truthy (s : t) : bool :=
  match s with [] => false | _ :: _ => true end.

(** Strict equality [===] of two strings. *)
Fixpoint eqb (s1 s2 : t) : bool :=
  match s1, s2 with
  | [], [] => true
  | c1 :: r1, c2 :: r2 => (c1 =? c2)%N && eqb r1 r2
  | _, _ => false
  end.

(** A literal of the source, written with Rocq's string notation. *)
Definition lit (s : string) : t := map N_of_ascii (list_ascii_of_string s).

Definition digit (c : N) (r : t) : t := (48 + c)%N :: r.

Fixpoint of_uint (d : Decimal.uint) : t :=
  match d with
  | Decimal.Nil => []
  | Decimal.D0 r => digit 0 (of_uint r)
  | Decimal.D1 r => digit 1 (of_uint r)
  | Decimal.D2 r => digit 2 (of_uint r)
  | Decimal.D3 r => digit 3 (of_uint r)
  | Decimal.D4 r => digit 4 (of_uint r)
  | Decimal.D5 r => digit 5 (of_uint r)
  | Decimal.D6 r => digit 6 (of_uint r)
  | Decimal.D7 r => digit 7 (of_uint r)
  | Decimal.D8 r => digit 8 (of_uint r)
  | Decimal.D9 r => digit 9 (of_uint r)
  end.

(** [Number.prototype.toString] on a non-negative integer time value:
    its decimal numeral ([Date.now()] stays far below 10^21, where the
    exponent form would start). *)
Definition ofTimeValue (n : N) : t := of_uint (N.to_uint n).

End JSString.

(** ** The data model *)

Local Open Scope float_scope.

(** [{ x: number; y: number }] *)
Record Point := mkPoint { x : float; y : float }.

(** ['line' | 'circle' | 'text'] *)
Module AnnotationType.
Inductive t := line | circle | text.

Definition eqb (a b : t) : bool :=
  match a, b with
  | line, line | circle, circle | text, text => true
  | _, _ => false
  end.
End AnnotationType.

(** [interface Annotation] (named [VideoAnnotation] in the screen). *)
Record Annotation := mkAnnotation {
  id : JSString.t;
  type : AnnotationType.t;
  points : list Point;
  timestamp : float;
  text : option JSString.t
}.

(** The in-progress drawing [{ type: 'line' | 'circle'; points }]. *)
Record Drawing := mkDrawing {
  drawingType : AnnotationType.t;
  drawingPoints : list Point
}.

(** What the expo-av player answers to [getStatusAsync()]. *)
Inductive AVPlaybackStatus :=
| NotLoaded
| Loaded (positionMillis : float).

(** The outcome of [await primaryVideoRef.current?.getStatusAsync()]: the
    ref holds no player ([undefined]), the promise rejects, or it resolves. *)
Inductive StatusQuery :=
| NoPlayer
| Rejected
| Resolved (status : AVPlaybackStatus).

(** A computation that may throw: reading a field of [undefined] raises a
    TypeError, an awaited promise may reject. *)
Inductive outcome (A : Type) :=
| Returned (a : A)
| Thrown.
Arguments Returned {A} a.
Arguments Thrown {A}.

(** [Array.prototype.find] with a predicate that may throw: the elements
    are tried in index order, the first one the predicate accepts is the
    answer, and an exception of the predicate propagates. *)
Fixpoint find_first {A : Type} (f : A -> outcome bool) (l : list A)
  : outcome (option A) :=
  match l with
  | [] => Returned None
  | a :: r =>
      match f a with
      | Thrown => Thrown
      | Returned true => Returned (Some a)
      | Returned false => find_first f r
      end
  end.

(** [Math.pow(v, 2)]. *)
Definition pow2 (v : float) : float := v * v.

(** [Math.sqrt(Math.pow(px - lx, 2) + Math.pow(py - ly, 2))]. *)
Definition distance (px py lx ly : float) : float :=
  sqrt (pow2 (px - lx) + pow2 (py - ly)).

(** [Math.abs(a.timestamp - currentTime) < 0.1], the test of the render
    filter.  The literal [0.1] denotes the binary64 value nearest to one
    tenth, in JavaScript as here. *)
#[local] Set Warnings "-inexact-float".
Definition nearTime (ts currentTime : float) : bool :=
  abs (ts - currentTime) <? 0.1.

(** [annotations.filter((a) => Math.abs(a.timestamp - currentTime) < 0.1)] *)
Definition visibleAnnotations (annotations : list Annotation)
  (currentTime : float) : list Annotation :=
  filter (fun a => nearTime (timestamp a) currentTime) annotations.

(** ** The overlay component, [components/VideoAnnotationLayer.tsx] *)

Module Layer.

(** The props the handlers read ([width] and [height] only size the
    view). *)
Record Props := mkProps {
  currentTime : float;
  annotations : list Annotation;
  isDrawingMode : bool;
  isTextMode : bool;
  isEraserMode : bool
}.

(** The callbacks of the props, as the requests a handler fires. *)
Inductive Callback :=
| onAddAnnotation (annotation : Annotation)
| onRemoveAnnotation (annotationId : JSString.t)
| onAddTextAnnotation (position : Point).

(** The predicate of [annotations.find] in eraser mode.  [const [point] =
    annotation.points] binds [undefined] on an empty array, and reading
    [point.x] then throws. *)
Definition clicked (locationX locationY : float) (annotation : Annotation)
  : outcome bool :=
  match type annotation with
  | AnnotationType.text =>
      match points annotation with
      | [] => Thrown
      | point :: _ =>
          Returned
            (distance (x point) (y point - 20) locationX locationY <? 30)
      end
  | AnnotationType.line =>
      Returned
        (existsb
           (fun point =>
              distance (x point) (y point) locationX locationY <? 10)
           (points annotation))
  | AnnotationType.circle =>
      match points annotation with
      | [] => Thrown
      | center :: _ =>
          Returned
            (distance (x center) (y center) locationX locationY <? 10)
      end
  end.

(** Each handler maps the props, the component's state [currentDrawing]
    and its event to the new state and the callbacks fired. *)
Definition onPanResponderGrant (props : Props)
  (currentDrawing : option Drawing) (location : Point)
  : outcome (option Drawing * list Callback) :=
  if negb (isDrawingMode props) && negb (isTextMode props)
     && negb (isEraserMode props)
  then Returned (currentDrawing, [])
  else if isTextMode props
  then Returned (currentDrawing, [onAddTextAnnotation location])
  else if isEraserMode props
  then
    match find_first (clicked (x location) (y location))
            (annotations props) with
    | Thrown => Thrown
    | Returned (Some clickedAnnotation) =>
        Returned (currentDrawing, [onRemoveAnnotation (id clickedAnnotation)])
    | Returned None => Returned (currentDrawing, [])
    end
  else
    Returned
      (Some {| drawingType := AnnotationType.line;
               drawingPoints := [location] |}, []).

Definition onPanResponderMove (props : Props)
  (currentDrawing : option Drawing) (location : Point)
  : option Drawing * list Callback :=
  match currentDrawing with
  | Some drawing =>
      if isDrawingMode props
      then (Some {| drawingType := drawingType drawing;
                    drawingPoints := drawingPoints drawing ++ [location] |},
            [])
      else (currentDrawing, [])
  | None => (currentDrawing, [])
  end.

(** [now] is the value [Date.now()] returns during the handler. *)
Definition onPanResponderRelease (props : Props)
  (currentDrawing : option Drawing) (now : N)
  : option Drawing * list Callback :=
  match currentDrawing with
  | Some drawing =>
      if isDrawingMode props
      then (None,
            [onAddAnnotation
               {| id := JSString.ofTimeValue now;
                  type := drawingType drawing;
                  points := drawingPoints drawing;
                  timestamp := currentTime props;
                  text := None |}])
      else (currentDrawing, [])
  | None => (currentDrawing, [])
  end.

(** The annotations the component renders. *)
Definition rendered (props : Props) : list Annotation :=
  visibleAnnotations (annotations props) (currentTime props).

End Layer.

(** ** The screen that hosts the overlay, [Analysis] *)

Module Analysis.

(** The state variables of [Analysis] that the annotation handlers read or
    write (notes, zoom scale, loop range, playback speed and export flags
    are independent of them). *)
Record State := mkState {
  primaryVideoUri : option JSString.t;
  secondaryVideoUri : option JSString.t;
  isDrawingMode : bool;
  isTextMode : bool;
  isEraserMode : bool;
  annotations : list Annotation;
  textAnnotation : JSString.t;
  showTextInput : bool;
  textPosition : option Point;
  currentTime : float
}.

(** [useState] initial values. *)
Definition initial : State :=
  {| primaryVideoUri := None; secondaryVideoUri := None;
     isDrawingMode := false; isTextMode := false; isEraserMode := false;
     annotations := []; textAnnotation := []; showTextInput := false;
     textPosition := None; currentTime := 0 |}.

Definition setAnnotations (f : list Annotation -> list Annotation)
  (s : State) : State :=
  {| primaryVideoUri := primaryVideoUri s;
     secondaryVideoUri := secondaryVideoUri s;
     isDrawingMode := isDrawingMode s; isTextMode := isTextMode s;
     isEraserMode := isEraserMode s;
     annotations := f (annotations s);
     textAnnotation := textAnnotation s; showTextInput := showTextInput s;
     textPosition := textPosition s; currentTime := currentTime s |}.

Definition setModes (drawing textMode eraser : bool) (s : State) : State :=
  {| primaryVideoUri := primaryVideoUri s;
     secondaryVideoUri := secondaryVideoUri s;
     isDrawingMode := drawing; isTextMode := textMode;
     isEraserMode := eraser;
     annotations := annotations s;
     textAnnotation := textAnnotation s; showTextInput := showTextInput s;
     textPosition := textPosition s; currentTime := currentTime s |}.

(** The three setters of the text prompt, applied together. *)
Definition setPrompt (input : JSString.t) (visible : bool)
  (position : option Point) (s : State) : State :=
  {| primaryVideoUri := primaryVideoUri s;
     secondaryVideoUri := secondaryVideoUri s;
     isDrawingMode := isDrawingMode s; isTextMode := isTextMode s;
     isEraserMode := isEraserMode s;
     annotations := annotations s;
     textAnnotation := input; showTextInput := visible;
     textPosition := position; currentTime := currentTime s |}.

Definition setCurrentTime (t : float) (s : State) : State :=
  {| primaryVideoUri := primaryVideoUri s;
     secondaryVideoUri := secondaryVideoUri s;
     isDrawingMode := isDrawingMode s; isTextMode := isTextMode s;
     isEraserMode := isEraserMode s;
     annotations := annotations s;
     textAnnotation := textAnnotation s; showTextInput := showTextInput s;
     textPosition := textPosition s; currentTime := t |}.

(** [status?.isLoaded ? status.positionMillis / 1000 : 0] on a query that
    did not reject. *)
Definition positionSeconds (q : StatusQuery) : float :=
  match q with
  | Resolved (Loaded positionMillis) => positionMillis / 1000
  | _ => 0
  end.

(** [handleAddAnnotation]: a rejected status query is caught and logged,
    and nothing is added. *)
Definition handleAddAnnotation (q : StatusQuery) (annotation : Annotation)
  (s : State) : State :=
  match q with
  | Rejected => s
  | _ =>
      setAnnotations
        (fun prevAnnotations =>
           prevAnnotations ++
           [{| id := id annotation; type := type annotation;
               points := points annotation;
               timestamp := positionSeconds q;
               text := text annotation |}]) s
  end.

Definition handleAddTextAnnotation (position : Point) (s : State) : State :=
  setPrompt (textAnnotation s) true (Some position) s.

(** [handleTextSubmit]; [now] is what [Date.now()] returns. *)
Definition handleTextSubmit (now : N) (q : StatusQuery) (s : State)
  : State :=
  match textPosition s with
  | Some position =>
      if JSString.truthy (JSString.trim (textAnnotation s))
      then
        match q with
        | Rejected => s
        | _ =>
            setPrompt [] false None
              (setAnnotations
                 (fun prevAnnotations =>
                    prevAnnotations ++
                    [{| id := JSString.ofTimeValue now;
                        type := AnnotationType.text;
                        points := [position];
                        timestamp := positionSeconds q;
                        text := Some (JSString.trim (textAnnotation s)) |}])
                 s)
        end
      else s
  | None => s
  end.

(** The Cancel button and [onRequestClose] of the text prompt. *)
Definition cancelTextInput (s : State) : State := setPrompt [] false None s.

Definition handleRemoveAnnotation (annotationId : JSString.t) (s : State)
  : State :=
  setAnnotations
    (filter (fun annotation =>
               negb (JSString.eqb (id annotation) annotationId))) s.

(** The three tool buttons of the toolbar. *)
Definition pressDrawing (s : State) : State :=
  setModes (negb (isDrawingMode s)) false false s.

Definition pressText (s : State) : State :=
  setModes false (negb (isTextMode s)) false s.

Definition pressEraser (s : State) : State :=
  setModes false false (negb (isEraserMode s)) s.

(** [selectVideo(isSecondary)]; [picked] is the outcome of the image
    picker: it throws (caught and logged), is cancelled ([None]) or yields
    the uri of a video. *)
Definition selectVideo (isSecondary : bool)
  (picked : outcome (option JSString.t)) (s : State) : State :=
  match picked with
  | Returned (Some uri) =>
      if isSecondary
      then
        {| primaryVideoUri := primaryVideoUri s;
           secondaryVideoUri := Some uri;
           isDrawingMode := isDrawingMode s; isTextMode := isTextMode s;
           isEraserMode := isEraserMode s;
           annotations := annotations s;
           textAnnotation := textAnnotation s;
           showTextInput := showTextInput s;
           textPosition := textPosition s; currentTime := currentTime s |}
      else
        {| primaryVideoUri := Some uri;
           secondaryVideoUri := secondaryVideoUri s;
           isDrawingMode := false; isTextMode := false;
           isEraserMode := false;
           annotations := [];
           textAnnotation := []; showTextInput := false;
           textPosition := None; currentTime := 0 |}
  | _ => s
  end.

(** [handlePlaybackStatusUpdate], as far as the overlay sees it (it also
    records [isPlaying] and the duration and restarts a custom loop). *)
Definition handlePlaybackStatusUpdate (status : AVPlaybackStatus) (s : State)
  : State :=
  match status with
  | NotLoaded => s
  | Loaded positionMillis => setCurrentTime (positionMillis / 1000) s
  end.

(** The props the screen passes to the overlay. *)
Definition layerProps (s : State) : Layer.Props :=
  {| Layer.currentTime := currentTime s;
     Layer.annotations := annotations s;
     Layer.isDrawingMode := isDrawingMode s;
     Layer.isTextMode := isTextMode s;
     Layer.isEraserMode := isEraserMode s |}.

End Analysis.

(** ** The screen and the overlay together *)

Module App.

(** The state of the running screen: the state of [Analysis] and the
    overlay's own [currentDrawing].  The overlay stays mounted while a
    primary video is shown, so its state survives a re-render. *)
Record State := mkApp {
  screen : Analysis.State;
  currentDrawing : option Drawing
}.

Definition initial : State :=
  {| screen := Analysis.initial; currentDrawing := None |}.

(** What the environment answers during one event: the clock read by
    [Date.now()] and the player asked by [getStatusAsync()]. *)
Record Env := mkEnv {
  now : N;
  statusQuery : StatusQuery
}.

Inductive Event :=
| PressDrawing
| PressText
| PressEraser
| SelectVideo (isSecondary : bool) (picked : outcome (option JSString.t))
| PlaybackStatusUpdate (status : AVPlaybackStatus)
| Grant (location : Point)
| Move (location : Point)
| Release
| ChangeText (input : JSString.t)
| SubmitText
| CancelText.

(** The screen's handler behind each callback prop of the overlay. *)
Definition fire (env : Env) (s : Analysis.State) (callback : Layer.Callback)
  : Analysis.State :=
  match callback with
  | Layer.onAddAnnotation annotation =>
      Analysis.handleAddAnnotation (statusQuery env) annotation s
  | Layer.onRemoveAnnotation annotationId =>
      Analysis.handleRemoveAnnotation annotationId s
  | Layer.onAddTextAnnotation position =>
      Analysis.handleAddTextAnnotation position s
  end.

Definition fireAll (env : Env) (callbacks : list Layer.Callback)
  (s : Analysis.State) : Analysis.State :=
  fold_left (fire env) callbacks s.

Definition withScreen (s : State) (scr : Analysis.State) : State :=
  {| screen := scr; currentDrawing := currentDrawing s |}.

(** One event.  Without a primary video only the video picker is on
    screen (the tool buttons are disabled, the player and the overlay are
    not rendered); the text prompt takes input only while it is shown.  An
    exception that escapes a handler leaves the state as it was. *)
Definition step (env : Env) (s : State) (e : Event) : State :=
  match e with
  | SelectVideo isSecondary picked =>
      withScreen s (Analysis.selectVideo isSecondary picked (screen s))
  | _ =>
      match Analysis.primaryVideoUri (screen s) with
      | None => s
      | Some _ =>
          match e with
          | PressDrawing => withScreen s (Analysis.pressDrawing (screen s))
          | PressText => withScreen s (Analysis.pressText (screen s))
          | PressEraser => withScreen s (Analysis.pressEraser (screen s))
          | PlaybackStatusUpdate status =>
              withScreen s
                (Analysis.handlePlaybackStatusUpdate status (screen s))
          | Grant location =>
              match Layer.onPanResponderGrant
                      (Analysis.layerProps (screen s)) (currentDrawing s)
                      location with
              | Thrown => s
              | Returned (drawing, callbacks) =>
                  {| screen := fireAll env callbacks (screen s);
                     currentDrawing := drawing |}
              end
          | Move location =>
              let (drawing, callbacks) :=
                Layer.onPanResponderMove
                  (Analysis.layerProps (screen s)) (currentDrawing s)
                  location in
              {| screen := fireAll env callbacks (screen s);
                 currentDrawing := drawing |}
          | Release =>
              let (drawing, callbacks) :=
                Layer.onPanResponderRelease
                  (Analysis.layerProps (screen s)) (currentDrawing s)
                  (now env) in
              {| screen := fireAll env callbacks (screen s);
                 currentDrawing := drawing |}
          | ChangeText input =>
              if Analysis.showTextInput (screen s)
              then withScreen s
                     (Analysis.setPrompt input
                        (Analysis.showTextInput (screen s))
                        (Analysis.textPosition (screen s)) (screen s))
              else s
          | SubmitText =>
              if Analysis.showTextInput (screen s)
              then withScreen s
                     (Analysis.handleTextSubmit (now env) (statusQuery env)
                        (screen s))
              else s
          | CancelText =>
              if Analysis.showTextInput (screen s)
              then withScreen s (Analysis.cancelTextInput (screen s))
              else s
          | SelectVideo _ _ => s
          end
      end
  end.

(** A run: each event with what the environment answers during it. *)
Fixpoint run (s : State) (trace : list (Env * Event)) : State :=
  match trace with
  | [] => s
  | (env, e) :: rest => run (step env s e) rest
  end.

(** The mode of the specification, read off the three flags in the order
    the overlay tests them. *)
Inductive Mode := Idle | Draw | TextPlacement | Erase.

Definition mode (s : State) : Mode :=
  if Analysis.isTextMode (screen s) then TextPlacement
  else if Analysis.isEraserMode (screen s) then Erase
  else if Analysis.isDrawingMode (screen s) then Draw
  else Idle.

End App.

(** ** The overlay with drag-to-move,
       [.history/components/VideoAnnotationLayer_20250509113500.tsx] *)

Module DragLayer.

Definition isNaN (v : float) : bool := negb (v =? v).

(** [Math.max] and [Math.min] of two numbers: NaN is contagious and
    [+0] is larger than [-0]. *)
Definition Math_max (a b : float) : float :=
  if isNaN a || isNaN b then nan
  else if a <? b then b
  else if b <? a then a
  else match classify a with NZero => b | _ => a end.

Definition Math_min (a b : float) : float :=
  if isNaN a || isNaN b then nan
  else if a <? b then a
  else if b <? a then b
  else match classify a with PZero => b | _ => a end.

Record Props := mkProps {
  currentTime : float;
  annotations : list Annotation;
  isDrawingMode : bool;
  isTextMode : bool;
  isEraserMode : bool;
  isZoomMode : bool;
  scale : float
}.

(** The four [useState] cells of the component. *)
Record State := mkState {
  currentDrawing : option Drawing;
  draggedAnnotation : option JSString.t;
  dragOffset : Point;
  zoomStart : option float
}.

Definition initial : State :=
  {| currentDrawing := None; draggedAnnotation := None;
     dragOffset := {| x := 0; y := 0 |}; zoomStart := None |}.

(** [onAddEmptyObject] is the call [onAddAnnotation({ ...undefined })] the
    move handler makes when no annotation carries the dragged id. *)
Inductive Callback :=
| onAddAnnotation (annotation : Annotation)
| onAddEmptyObject
| onRemoveAnnotation (annotationId : JSString.t)
| onAddTextAnnotation (position : Point)
| onScaleChange (newScale : float).

(** The predicate of the drag-start search; [a.points[0]] is [undefined]
    on an empty array and [point.x] then throws. *)
Definition textHit (locationX locationY : float) (a : Annotation)
  : outcome bool :=
  match points a with
  | [] => Thrown
  | point :: _ =>
      Returned (distance (x point) (y point) locationX locationY <? 30)
  end.

Definition onStartShouldSetPanResponder (props : Props) (st : State)
  (location : Point) : outcome (State * bool) :=
  if isZoomMode props
  then Returned ({| currentDrawing := currentDrawing st;
                    draggedAnnotation := draggedAnnotation st;
                    dragOffset := dragOffset st;
                    zoomStart := Some (scale props) |}, true)
  else if isEraserMode props || isTextMode props || isDrawingMode props
  then Returned (st, true)
  else
    match find_first (textHit (x location) (y location))
            (filter
               (fun a =>
                  nearTime (timestamp a) (currentTime props)
                  && AnnotationType.eqb (type a) AnnotationType.text)
               (annotations props)) with
    | Thrown => Thrown
    | Returned None => Returned (st, false)
    | Returned (Some textAnnotation) =>
        match points textAnnotation with
        | [] => Thrown
        | point :: _ =>
            Returned
              ({| currentDrawing := currentDrawing st;
                  draggedAnnotation := Some (id textAnnotation);
                  dragOffset := {| x := x location - x point;
                                   y := y location - y point |};
                  zoomStart := zoomStart st |}, true)
        end
    end.

(** The eraser's predicate of this version: no baseline offset for text. *)
Definition clicked (locationX locationY : float) (annotation : Annotation)
  : outcome bool :=
  match type annotation with
  | AnnotationType.text =>
      match points annotation with
      | [] => Thrown
      | point :: _ =>
          Returned (distance (x point) (y point) locationX locationY <? 30)
      end
  | AnnotationType.line =>
      Returned
        (existsb
           (fun point =>
              distance (x point) (y point) locationX locationY <? 10)
           (points annotation))
  | AnnotationType.circle =>
      match points annotation with
      | [] => Thrown
      | center :: _ =>
          Returned (distance (x center) (y center) locationX locationY <? 10)
      end
  end.

Definition onPanResponderGrant (props : Props) (st : State)
  (location : Point) : outcome (State * list Callback) :=
  if isZoomMode props then Returned (st, [])
  else if isDrawingMode props
  then Returned
         ({| currentDrawing :=
               Some {| drawingType := AnnotationType.line;
                       drawingPoints := [location] |};
             draggedAnnotation := draggedAnnotation st;
             dragOffset := dragOffset st;
             zoomStart := zoomStart st |}, [])
  else if isTextMode props
  then Returned (st, [onAddTextAnnotation location])
  else if isEraserMode props
  then
    match find_first (clicked (x location) (y location))
            (annotations props) with
    | Thrown => Thrown
    | Returned (Some clickedAnnotation) =>
        Returned (st, [onRemoveAnnotation (id clickedAnnotation)])
    | Returned None => Returned (st, [])
    end
  else Returned (st, []).

(** The list [newAnnotations] of the move handler: the annotation with the
    dragged id re-anchored at the pointer minus the grab offset. *)
Definition moved (dragged : JSString.t) (offset location : Point)
  (annotation : Annotation) : Annotation :=
  if JSString.eqb (id annotation) dragged
  then {| id := id annotation; type := type annotation;
          points := [{| x := x location - x offset;
                        y := y location - y offset |}];
          timestamp := timestamp annotation; text := text annotation |}
  else annotation.

(** [dx] is [gestureState.dx]. *)
Definition onPanResponderMove (props : Props) (st : State)
  (location : Point) (dx : float) : State * list Callback :=
  match (if isZoomMode props then zoomStart st else None) with
  | Some start =>
      (st, [onScaleChange
              (Math_min (Math_max (start * (1 + dx / 200)) 0.5) 3)])
  | None =>
      match (if isDrawingMode props then currentDrawing st else None) with
      | Some drawing =>
          ({| currentDrawing :=
                Some {| drawingType := drawingType drawing;
                        drawingPoints := drawingPoints drawing ++ [location] |};
              draggedAnnotation := draggedAnnotation st;
              dragOffset := dragOffset st;
              zoomStart := zoomStart st |}, [])
      | None =>
          match draggedAnnotation st with
          | Some dragged =>
              if JSString.truthy dragged
              then
                match find (fun a => JSString.eqb (id a) dragged)
                        (map (moved dragged (dragOffset st) location)
                           (annotations props)) with
                | Some annotation => (st, [onAddAnnotation annotation])
                | None => (st, [onAddEmptyObject])
                end
              else (st, [])
          | None => (st, [])
          end
      end
  end.

Definition onPanResponderRelease (props : Props) (st : State) (now : N)
  : State * list Callback :=
  if isZoomMode props
  then ({| currentDrawing := currentDrawing st;
           draggedAnnotation := draggedAnnotation st;
           dragOffset := dragOffset st;
           zoomStart := None |}, [])
  else
    match (if isDrawingMode props then currentDrawing st else None) with
    | Some drawing =>
        ({| currentDrawing := None; draggedAnnotation := None;
            dragOffset := {| x := 0; y := 0 |};
            zoomStart := zoomStart st |},
         [onAddAnnotation
            {| id := JSString.ofTimeValue now;
               type := drawingType drawing;
               points := drawingPoints drawing;
               timestamp := currentTime props;
               text := None |}])
    | None =>
        ({| currentDrawing := currentDrawing st; draggedAnnotation := None;
            dragOffset := {| x := 0; y := 0 |};
            zoomStart := zoomStart st |}, [])
    end.

(** What the screen's list holds once the overlay can pass the empty
    object: an annotation record, or the record [{ timestamp }] that
    [handleAddAnnotation] makes of [{}]. *)
Inductive Held :=
| Whole (annotation : Annotation)
| TimestampOnly (timestamp : float).

(** [handleAddAnnotation] on such a list: [{ ...annotation, timestamp:
    currentTime }] is appended unless the status query rejects; [passed]
    is [None] for the empty object. *)
Definition heldAdd (q : StatusQuery) (passed : option Annotation)
  (held : list Held) : list Held :=
  match q with
  | Rejected => held
  | _ =>
      held ++
      [match passed with
       | Some annotation =>
           Whole {| id := id annotation; type := type annotation;
                    points := points annotation;
                    timestamp := Analysis.positionSeconds q;
                    text := text annotation |}
       | None => TimestampOnly (Analysis.positionSeconds q)
       end]
  end.

(** [handleRemoveAnnotation] on such a list: a record without an id is
    kept, [undefined !== annotationId] being true. *)
Definition heldRemove (annotationId : JSString.t) (held : list Held)
  : list Held :=
  filter
    (fun h =>
       match h with
       | Whole annotation => negb (JSString.eqb (id annotation) annotationId)
       | TimestampOnly _ => true
       end) held.

(** A pointer move seen from the screen: the overlay's move handler
    followed by the screen's handler behind each callback it fires (the
    text prompt and the scale are no part of the list). *)
Definition dragMove (q : StatusQuery) (props : Props) (st : State)
  (location : Point) (dx : float) (held : list Held) : list Held :=
  fold_left
    (fun held callback =>
       match callback with
       | onAddAnnotation annotation => heldAdd q (Some annotation) held
       | onAddEmptyObject => heldAdd q None held
       | onRemoveAnnotation annotationId => heldRemove annotationId held
       | onAddTextAnnotation _ => held
       | onScaleChange _ => held
       end)
    (snd (onPanResponderMove props st location dx)) held.

End DragLayer.

(** ** The vocabulary of the specification *)

(** The player answered the status query (the promise did not reject). *)
Definition answered (q : StatusQuery) : bool :=
  match q with
  | Rejected => false
  | _ => true
  end.

(** A primary video is on screen and the pencil is the selected tool. *)
Definition drawReady (s : App.State) : bool :=
  match Analysis.primaryVideoUri (App.screen s) with
  | Some _ =>
      Analysis.isDrawingMode (App.screen s)
      && negb (Analysis.isTextMode (App.screen s))
      && negb (Analysis.isEraserMode (App.screen s))
  | None => false
  end.

(** [continueGesture] once per reported position. *)
Definition continues (positions : list (App.Env * Point))
  : list (App.Env * App.Event) :=
  map (fun c => (fst c, App.Move (snd c))) positions.

(** A whole gesture: [beginGesture], the [continueGesture] calls in
    arrival order, [endGesture]. *)
Definition gesture (start : App.Env * Point)
  (positions : list (App.Env * Point)) (finish : App.Env)
  : list (App.Env * App.Event) :=
  (fst start, App.Grant (snd start))
    :: continues positions ++ [(finish, App.Release)].

(** The annotation a finished drawing becomes. *)
Definition drawn (finish : App.Env) (pts : list Point) : Annotation :=
  {| id := JSString.ofTimeValue (App.now finish);
     type := AnnotationType.line;
     points := pts;
     timestamp := Analysis.positionSeconds (App.statusQuery finish);
     text := None |}.

(** The eraser's hit test as a yes or no: a text counts within 30 pixels of
    the point 20 pixels above its anchor, a circle within 10 pixels of its
    centre, a line within 10 pixels of one of its vertices. *)
Definition erasable (location : Point) (a : Annotation) : bool :=
  match type a with
  | AnnotationType.text =>
      match points a with
      | [] => false
      | p :: _ =>
          distance (x p) (y p - 20) (x location) (y location) <? 30
      end
  | AnnotationType.line =>
      existsb
        (fun p => distance (x p) (y p) (x location) (y location) <? 10)
        (points a)
  | AnnotationType.circle =>
      match points a with
      | [] => false
      | c :: _ => distance (x c) (y c) (x location) (y location) <? 10
      end
  end.

(** A text or a circle has the point it is anchored at. *)
Definition anchored (a : Annotation) : bool :=
  match type a, points a with
  | AnnotationType.line, _ => true
  | _, [] => false
  | _, _ :: _ => true
  end.

(** The mode-switch commands: the three tool buttons. *)
Definition modeSwitch (e : App.Event) : bool :=
  match e with
  | App.PressDrawing | App.PressText | App.PressEraser => true
  | _ => false
  end.

(** The event adds an annotation to the list the screen holds. *)
Definition creates (env : App.Env) (s : App.State) (e : App.Event) : bool :=
  Nat.ltb (List.length (Analysis.annotations (App.screen s)))
    (List.length (Analysis.annotations (App.screen (App.step env s e)))).

(** What [Date.now()] returned at the events of a run that created an
    annotation, in order. *)
Fixpoint creationReadings (s : App.State)
  (trace : list (App.Env * App.Event)) : list N :=
  match trace with
  | [] => []
  | (env, e) :: rest =>
      (if creates env s e then [App.now env] else [])
      ++ creationReadings (App.step env s e) rest
  end.

(** The ids of the annotations the screen holds. *)
Definition ids (s : App.State) : list JSString.t :=
  map id (Analysis.annotations (App.screen s)).

(** An event leaves the annotation list as it is, empties it, filters it,
    or appends one annotation whose id is the clock reading of the event. *)
Inductive listChange (clock : N) (l : list Annotation)
  : list Annotation -> Prop :=
| Kept : listChange clock l l
| Emptied : listChange clock l []
| Filtered (keep : Annotation -> bool) : listChange clock l (filter keep l)
| Appended (a : Annotation) :
    id a = JSString.ofTimeValue clock -> listChange clock l (l ++ [a]).

(** The invariant: the ids held are pairwise distinct and each prints a
    clock reading of the past. *)
Definition idsFrom (past : list N) (l : list Annotation) : Prop :=
  NoDup (map id l)
  /\ Forall (fun a => exists n, In n past /\ id a = JSString.ofTimeValue n) l.

(** At most one of the three tools is selected. *)
Definition atMostOneTool (scr : Analysis.State) : bool :=
  match Analysis.isDrawingMode scr, Analysis.isTextMode scr,
        Analysis.isEraserMode scr with
  | true, true, _ | true, _, true | _, true, true => false
  | _, _, _ => true
  end.

(** What every state of a run satisfies: texts and circles are anchored,
    a draft is a line, and the tools exclude each other. *)
Definition wellFormed (s : App.State) : Prop :=
  forallb anchored (Analysis.annotations (App.screen s)) = true
  /\ match App.currentDrawing s with
     | Some drawing => drawingType drawing = AnnotationType.line
     | None => True
     end
  /\ atMostOneTool (App.screen s) = true.

(** Environments and the opening of a session used by the examples: the
    player is loaded and reports [positionMillis], and the clock reads
    [clock]. *)
Definition loadedAt (clock : N) (positionMillis : float) : App.Env :=
  {| App.now := clock;
     App.statusQuery := Resolved (Loaded positionMillis) |}.

Definition pickPrimary (uri : string) : App.Event :=
  App.SelectVideo false (Returned (Some (JSString.lit uri))).

(** ** What the overlay draws, [renderAnnotation] *)

Module Render.

(** The elements of [react-native-svg] the overlay emits, with the props
    that vary (stroke, fill and font are constants of the source). *)
Inductive SvgElement :=
| Line (key : JSString.t) (x1 y1 x2 y2 : float)
| Circle (cx cy : float)
| SvgText (key : JSString.t) (tx ty : float) (content : JSString.t).

(** What [renderAnnotation] returns: the array a line maps to (with its
    [null] entries), one element, or [null]. *)
Inductive Rendered :=
| Elements (entries : list (option SvgElement))
| Element (e : SvgElement)
| Null.

(** [`${annotation.id}-${index}`] *)
Definition segmentKey (annotationId : JSString.t) (index : nat)
  : JSString.t :=
  annotationId ++ JSString.lit "-" ++ JSString.of_uint (Nat.to_uint index).

(** The entries of [annotation.points.map((point, index) => ...)] from
    [index] on, [prevPoint] being [annotation.points[index - 1]]. *)
Fixpoint segments (annotationId : JSString.t) (prevPoint : Point)
  (index : nat) (rest : list Point) : list (option SvgElement) :=
  match rest with
  | [] => []
  | point :: rest' =>
      Some (Line (segmentKey annotationId index)
              (x prevPoint) (y prevPoint) (x point) (y point))
        :: segments annotationId point (S index) rest'
  end.

(** [renderAnnotation]: destructuring the first point of an empty array
    binds [undefined], whose field read throws. *)
Definition renderAnnotation (annotation : Annotation) : outcome Rendered :=
  match type annotation with
  | AnnotationType.line =>
      Returned
        (Elements
           match points annotation with
           | [] => []
           | first :: rest => None :: segments (id annotation) first 1 rest
           end)
  | AnnotationType.circle =>
      match points annotation with
      | [] => Thrown
      | center :: _ => Returned (Element (Circle (x center) (y center)))
      end
  | AnnotationType.text =>
      match text annotation with
      | Some content =>
          if JSString.truthy content
          then
            match points annotation with
            | [] => Thrown
            | position :: _ =>
                Returned
                  (Element
                     (SvgText (id annotation) (x position) (y position)
                        content))
            end
          else Returned Null
      | None => Returned Null
      end
  end.

(** [list.map(renderAnnotation)]: the first exception ends the render. *)
Fixpoint renderAll (l : list Annotation) : outcome (list Rendered) :=
  match l with
  | [] => Returned []
  | a :: rest =>
      match renderAnnotation a, renderAll rest with
      | Returned r, Returned rs => Returned (r :: rs)
      | _, _ => Thrown
      end
  end.

(** The children of the [Svg] element: the annotations inside the time
    window, then the drawing in progress under the id ['current']. *)
Definition view (props : Layer.Props) (currentDrawing : option Drawing)
  : outcome (list Rendered) :=
  renderAll
    (visibleAnnotations (Layer.annotations props) (Layer.currentTime props)
     ++ match currentDrawing with
        | Some drawing =>
            [{| id := JSString.lit "current";
                type := drawingType drawing;
                points := drawingPoints drawing;
                timestamp := Layer.currentTime props;
                text := None |}]
        | None => []
        end).

(** The elements that reach the screen: React skips [null]. *)
Definition marks (r : Rendered) : list SvgElement :=
  match r with
  | Elements entries =>
      flat_map (fun entry => match entry with Some e => [e] | None => [] end)
        entries
  | Element e => [e]
  | Null => []
  end.

(** The two ends of a line element. *)
Definition ends (e : SvgElement) : option (Point * Point) :=
  match e with
  | Line _ x1 y1 x2 y2 =>
      Some ({| x := x1; y := y1 |}, {| x := x2; y := y2 |})
  | _ => None
  end.

End Render.

(** ** Pan-to-zoom of the screen, the [panResponder] of [Analysis] *)

Module Zoom.

(** The values of the render the handlers were created in. *)
Record Closure := mkClosure {
  isDrawingMode : bool;
  isTextMode : bool;
  isEraserMode : bool;
  scale : float
}.

(** The [scale] state and the [lastScale] ref. *)
Record State := mkState {
  currentScale : float;
  lastScale : float
}.

(** [useState(1)] and [useRef(1)]. *)
Definition initial : State := {| currentScale := 1; lastScale := 1 |}.

Definition toolSelected (c : Closure) : bool :=
  isDrawingMode c || isTextMode c || isEraserMode c.

Definition onStartShouldSetPanResponder (c : Closure) : bool :=
  negb (isDrawingMode c) && negb (isTextMode c) && negb (isEraserMode c).

Definition onPanResponderGrant (c : Closure) (st : State) : State :=
  if toolSelected c then st
  else {| currentScale := currentScale st; lastScale := scale c |}.

(** [Math.min(Math.max(lastScale.current * (1 + dx / 200), 0.5), 3)] *)
Definition limitedScale (last dx : float) : float :=
  DragLayer.Math_min (DragLayer.Math_max (last * (1 + dx / 200)) 0.5) 3.

(** [dx] is [gestureState.dx]. *)
Definition onPanResponderMove (c : Closure) (st : State) (dx : float)
  : State :=
  if toolSelected c then st
  else {| currentScale := limitedScale (lastScale st) dx;
          lastScale := lastScale st |}.

End Zoom.

(** ** The loop range, [VideoLoopSlider] and the loop handlers of
       [Analysis] *)

Module LoopSlider.

Record Props := mkProps {
  duration : float;
  loopStartTime : float;
  loopEndTime : option float
}.

Record State := mkState {
  startSliderValue : float;
  endSliderValue : float
}.



(** The handlers return the new state and the arguments they pass to
    [onRangeChange]. *)
Definition handleStartChange (st : State) (value : float)
  : State * (float * float) :=
  let newStart := DragLayer.Math_min value (endSliderValue st - 0.1) in
  ({| startSliderValue := newStart; endSliderValue := endSliderValue st |},
   (newStart, endSliderValue st)).

Definition handleEndChange (st : State) (value : float)
  : State * (float * float) :=
  let newEnd := DragLayer.Math_max value (startSliderValue st + 0.1) in
  ({| startSliderValue := startSliderValue st; endSliderValue := newEnd |},
   (startSliderValue st, newEnd)).


End LoopSlider.

Module Playback.

(** The fields of a playback status the loop handlers read. *)
Inductive Status :=
| NotLoaded
| Loaded (positionMillis : float) (isPlaying : bool)
    (durationMillis : option float).

(** The loop and playback state variables of [Analysis]. *)
Record State := mkState {
  loopStartTime : float;
  loopEndTime : option float;
  videoDuration : float;
  currentTime : float;
  isPlaying : bool
}.

Definition initial : State :=
  {| loopStartTime := 0; loopEndTime := None; videoDuration := 0;
     currentTime := 0; isPlaying := false |}.

(** The calls a handler makes on the player, in the order it makes
    them. *)
Inductive Command :=
| setIsLoopingAsync (looping : bool)
| getStatusAsync
| setPositionAsync (positionMillis : float)
| playAsync.

(** The player during one handler: whether [primaryVideoRef.current] holds
    it, and how each awaited call ends ([true]: the promise resolves). *)
Record Player := mkPlayer {
  mounted : bool;
  setIsLoopingResolves : bool;
  status : outcome Status;
  setPositionResolves : bool;
  playResolves : bool
}.

Definition setLoop (start : float) (finish : option float) (st : State)
  : State :=
  {| loopStartTime := start; loopEndTime := finish;
     videoDuration := videoDuration st; currentTime := currentTime st;
     isPlaying := isPlaying st |}.

(** [handleLoopRangeChange]: a rejected call is caught and logged, and
    what follows it is skipped. *)
Definition handleLoopRangeChange (player : Player) (start finish : float)
  (st : State) : State * list Command :=
  if negb (mounted player) then (st, [])
  else if (start =? 0) && (finish =? videoDuration st)
  then
    if setIsLoopingResolves player
    then (setLoop 0 None st, [setIsLoopingAsync true])
    else (st, [setIsLoopingAsync true])
  else
    if negb (setIsLoopingResolves player)
    then (st, [setIsLoopingAsync false])
    else
      let st' := setLoop start (Some finish) st in
      match status player with
      | Returned (Loaded positionMillis playing _) =>
          let currentPos := positionMillis / 1000 in
          if (currentPos <? start) || (finish <? currentPos)
          then
            if setPositionResolves player
            then (st',
                  [setIsLoopingAsync false; getStatusAsync;
                   setPositionAsync (start * 1000)]
                  ++ (if playing then [] else [playAsync]))
            else (st',
                  [setIsLoopingAsync false; getStatusAsync;
                   setPositionAsync (start * 1000)])
          else (st',
                [setIsLoopingAsync false; getStatusAsync]
                ++ (if playing then [] else [playAsync]))
      | _ => (st', [setIsLoopingAsync false; getStatusAsync])
      end.

(** [handlePlaybackStatusUpdate] with its loop handling. *)
Definition handlePlaybackStatusUpdate (player : Player) (update : Status)
  (st : State) : State * list Command :=
  match update with
  | NotLoaded => (st, [])
  | Loaded positionMillis playing durationMillis =>
      let newTime := positionMillis / 1000 in
      let st' :=
        {| loopStartTime := loopStartTime st;
           loopEndTime := loopEndTime st;
           videoDuration :=
             match durationMillis with
             | Some d => d / 1000
             | None => videoDuration st
             end;
           currentTime := newTime;
           isPlaying := playing |} in
      match loopEndTime st with
      | Some finish =>
          if mounted player && (finish <=? newTime)
          then (st',
                setPositionAsync (loopStartTime st * 1000)
                  :: (if setPositionResolves player && playing
                      then [playAsync] else []))
          else (st', [])
      | None => (st', [])
      end
  end.


End Playback.

(** ** Notes of the screen *)

Module Notes.

(** [interface Note] *)
Record Note := mkNote {
  noteId : JSString.t;
  noteTimestamp : float;
  noteBody : JSString.t
}.

Record State := mkState {
  notes : list Note;
  noteText : JSString.t;
  showNoteInput : bool
}.

Definition initial : State :=
  {| notes := []; noteText := []; showNoteInput := false |}.

(** The Save button of the note prompt; [now] is [Date.now()]. *)
Definition save (now : N) (st : State) : State :=
  if JSString.truthy (JSString.trim (noteText st))
  then {| notes := notes st ++
                   [{| noteId := JSString.ofTimeValue now;
                       noteTimestamp := 0;
                       noteBody := noteText st |}];
          noteText := []; showNoteInput := false |}
  else st.

(** The Cancel button and [onRequestClose]: the prompt is hidden, what was
    typed stays. *)
Definition cancel (st : State) : State :=
  {| notes := notes st; noteText := noteText st; showNoteInput := false |}.

End Notes.

(** [Number.isFinite]: neither NaN nor an infinity. *)
Definition isFinite (v : float) : bool := abs v <? infinity.

(** The zoom range of the screen and of the overlay. *)
Definition inZoomRange (v : float) : bool := (0.5 <=? v) && (v <=? 3).

(** The shape of what the screen creates: a line has a first point and no
    label, a text has exactly its anchor and a label with a character in
    it; a circle is never created. *)
Definition shaped (a : Annotation) : bool :=
  match type a, points a, text a with
  | AnnotationType.line, _ :: _, None => true
  | AnnotationType.text, [_], Some label => JSString.truthy label
  | _, _, _ => false
  end.

(** The text prompt is shown exactly while a position is pending, and
    holds no input while it is hidden. *)
Definition promptCoherent (scr : Analysis.State) : bool :=
  match Analysis.showTextInput scr, Analysis.textPosition scr with
  | true, Some _ => true
  | false, None => JSString.eqb (Analysis.textAnnotation scr) []
  | _, _ => false
  end.

(** What every state of a run satisfies, in full. *)
Definition coherent (s : App.State) : Prop :=
  forallb shaped (Analysis.annotations (App.screen s)) = true
  /\ match App.currentDrawing s with
     | Some drawing =>
         drawingType drawing = AnnotationType.line
         /\ drawingPoints drawing <> []
     | None => True
     end
  /\ atMostOneTool (App.screen s) = true
  /\ promptCoherent (App.screen s) = true
  /\ (Analysis.primaryVideoUri (App.screen s) = None ->
      App.currentDrawing s = None
      /\ Analysis.annotations (App.screen s) = []
      /\ App.mode s = App.Idle).

(** * Properties *)

(** ** Binary64 facts the time window rests on *)

Section Binary64.

Variables prec emax : Z.

(** Rounding to nearest even treats both signs alike. *)
Lemma SFabs_binary_round_aux (s1 s2 : bool) (mx ex : Z) (lx : location) :
  SFabs (binary_round_aux prec emax s1 mx ex lx) =
  SFabs (binary_round_aux prec emax s2 mx ex lx).
Proof.
  unfold binary_round_aux.
  destruct (shr_fexp prec emax mx ex lx) as [mrs' e'].
  destruct (shr_fexp prec emax _ e' loc_Exact) as [mrs'' e''].
  destruct (shr_m mrs''); simpl; try reflexivity.
  destruct (Z.leb e'' (Z.sub emax prec)); reflexivity.
Qed.

Lemma SFabs_binary_normalize_opp (m e : Z) :
  SFabs (binary_normalize prec emax (- m) e false) =
  SFabs (binary_normalize prec emax m e false).
Proof.
  destruct m as [|p|p]; simpl; try reflexivity;
    unfold binary_round;
    destruct (shl_align p e _) as [mz ez]; apply SFabs_binary_round_aux.
Qed.

Lemma SFabs_SFsub_swap (a b : spec_float) :
  SFabs (SFsub prec emax a b) = SFabs (SFsub prec emax b a).
Proof.
  destruct a as [sa|sa| |sa ma ea], b as [sb|sb| |sb mb eb]; simpl;
    try reflexivity;
    try (destruct sa, sb; reflexivity);
    try (destruct sa; reflexivity); try (destruct sb; reflexivity).
  rewrite (Z.min_comm eb ea), <- SFabs_binary_normalize_opp.
  f_equal. f_equal. lia.
Qed.

End Binary64.

(** [Math.abs(a - b)] and [Math.abs(b - a)] are the same number, NaN and
    infinities included. *)
Lemma abs_sub_swap (a b : float) : abs (a - b) = abs (b - a).
Proof.
  apply Prim2SF_inj. rewrite !abs_spec, !sub_spec. apply SFabs_SFsub_swap.
Qed.

Lemma nearTime_sym (ts t : float) : nearTime ts t = nearTime t ts.
Proof. unfold nearTime. now rewrite abs_sub_swap. Qed.

(** ** The time window *)

(** C1.  For every annotation [a] of the list the overlay holds and every
    playback time [t], the rendered selection contains [a] exactly when
    [Math.abs(a.timestamp - t) < 0.1], computed in binary64 as the program
    does.  The test is symmetric in the two times, so the window extends
    to both sides of [a.timestamp], and the bound is strict: when the
    difference is the number [0.1] itself the annotation is not shown. *)
Theorem visibleAnnotations_window (annotations : list Annotation)
  (a : Annotation) (t : float) :
  (In a (visibleAnnotations annotations t) <->
   In a annotations /\ (abs (timestamp a - t) <? 0.1) = true)
  /\ nearTime (timestamp a) t = nearTime t (timestamp a)
  /\ (abs (timestamp a - t) = 0.1 ->
      ~ In a (visibleAnnotations annotations t)).
Proof.
  split; [|split].
  - unfold visibleAnnotations. rewrite filter_In. reflexivity.
  - apply nearTime_sym.
  - intros Hd Hin. unfold visibleAnnotations in Hin.
    apply filter_In in Hin. destruct Hin as [_ Hnear].
    unfold nearTime in Hnear. rewrite Hd in Hnear. vm_compute in Hnear.
    discriminate.
Qed.

(** The boundary of C1 on a run of the program's own numbers: an annotation
    stamped [0] is shown at [0.05] and hidden at [0.1]. *)
Lemma visibleAnnotations_window_witness :
  let a := {| id := JSString.lit "1"; type := AnnotationType.line;
              points := [{| x := 1; y := 2 |}]; timestamp := 0;
              text := None |} in
  In a (visibleAnnotations [a] 0.05)
  /\ (In a (visibleAnnotations [a] 0.1) -> False).
Proof.
  intro a. split.
  - apply (proj2 (proj1 (visibleAnnotations_window [a] a 0.05))).
    split; [left; reflexivity | vm_compute; reflexivity].
  - apply (proj2 (proj2 (visibleAnnotations_window [a] a 0.1))).
    vm_compute. reflexivity.
Defined.

(** The specification's scenario: an annotation stamped 5 seconds is shown
    at 5.05 and at 4.95 seconds and hidden at 5.2 and at 4.8 seconds. *)
Example window_scenario :
  nearTime 5 5.05 = true /\ nearTime 5 4.95 = true
  /\ nearTime 5 5.2 = false /\ nearTime 5 4.8 = false.
Proof. vm_compute. repeat split. Qed.

(** The numbers are binary64 values: the value written [5.1] (5100 ms)
    lies below 5.1, its distance to 5 is below the value written [0.1],
    and an annotation stamped 5 seconds is still shown there; stamped 0 it
    is hidden at the value written [0.1]. *)
Example window_on_decimal_numerals :
  5100 / 1000 = 5.1
  /\ (abs (5 - 5.1) <? 0.1) = true
  /\ nearTime 5 5.1 = true
  /\ nearTime 0 0.1 = false.
Proof. vm_compute. repeat split. Qed.

(** ** Drawing gestures *)

Section DrawGesture.

Variable s : App.State.
Hypothesis Hready : drawReady s = true.

Lemma drawReady_flags :
  exists uri,
    Analysis.primaryVideoUri (App.screen s) = Some uri
    /\ Analysis.isDrawingMode (App.screen s) = true
    /\ Analysis.isTextMode (App.screen s) = false
    /\ Analysis.isEraserMode (App.screen s) = false.
Proof.
  unfold drawReady in Hready.
  destruct (Analysis.primaryVideoUri (App.screen s)) as [uri|];
    [|discriminate].
  exists uri.
  destruct (Analysis.isDrawingMode (App.screen s)),
    (Analysis.isTextMode (App.screen s)),
    (Analysis.isEraserMode (App.screen s)); try discriminate.
  repeat split.
Qed.

(** [beginGesture] starts a draft holding the position, whatever draft was
    there, and leaves the screen alone. *)
Lemma step_Grant_draw (env : App.Env) (p : Point) :
  App.step env s (App.Grant p) =
  {| App.screen := App.screen s;
     App.currentDrawing :=
       Some {| drawingType := AnnotationType.line; drawingPoints := [p] |} |}.
Proof.
  destruct drawReady_flags as (uri & Hu & Hd & Ht & He).
  unfold App.step, Layer.onPanResponderGrant. rewrite Hu. simpl.
  rewrite Hd, Ht, He. reflexivity.
Qed.

End DrawGesture.

(** [continueGesture] calls append their positions to the draft. *)
Lemma run_continues (positions : list (App.Env * Point)) :
  forall (scr : Analysis.State) (ty : AnnotationType.t) (pts : list Point),
    drawReady {| App.screen := scr; App.currentDrawing := None |} = true ->
    App.run
      {| App.screen := scr;
         App.currentDrawing :=
           Some {| drawingType := ty; drawingPoints := pts |} |}
      (continues positions) =
    {| App.screen := scr;
       App.currentDrawing :=
         Some {| drawingType := ty;
                 drawingPoints := pts ++ map snd positions |} |}.
Proof.
  induction positions as [|[env p] rest IH]; intros scr ty pts Hready.
  - simpl. now rewrite app_nil_r.
  - destruct (drawReady_flags _ Hready) as (uri & Hu & Hd & _).
    simpl in Hu, Hd. simpl.
    rewrite Hu, Hd. simpl. rewrite IH by exact Hready.
    now rewrite <- app_assoc.
Qed.

(** [endGesture] on a draft: the annotation is appended with the player's
    position as its timestamp and the draft is cleared. *)
Lemma step_Release_draw (scr : Analysis.State) (ty : AnnotationType.t)
  (pts : list Point) (finish : App.Env) :
  drawReady {| App.screen := scr; App.currentDrawing := None |} = true ->
  answered (App.statusQuery finish) = true ->
  App.step finish
    {| App.screen := scr;
       App.currentDrawing :=
         Some {| drawingType := ty; drawingPoints := pts |} |}
    App.Release =
  {| App.screen :=
       Analysis.setAnnotations
         (fun prev =>
            prev ++
            [{| id := JSString.ofTimeValue (App.now finish);
                type := ty; points := pts;
                timestamp := Analysis.positionSeconds (App.statusQuery finish);
                text := None |}]) scr;
     App.currentDrawing := None |}.
Proof.
  intros Hready Hans.
  destruct (drawReady_flags _ Hready) as (uri & Hu & Hd & _).
  simpl in Hu, Hd.
  unfold App.step, Layer.onPanResponderRelease. simpl. rewrite Hu, Hd. simpl.
  unfold Analysis.handleAddAnnotation.
  destruct (App.statusQuery finish); try discriminate; reflexivity.
Qed.

Lemma run_app (tr1 tr2 : list (App.Env * App.Event)) :
  forall s, App.run s (tr1 ++ tr2) = App.run (App.run s tr1) tr2.
Proof.
  induction tr1 as [|[env e] rest IH]; intro s; simpl; auto.
Qed.

(** A whole draw gesture, taps included: one annotation of type ['line']
    holding every reported position in arrival order. *)
Lemma run_gesture (s : App.State) (start : App.Env * Point)
  (positions : list (App.Env * Point)) (finish : App.Env) :
  drawReady s = true ->
  answered (App.statusQuery finish) = true ->
  App.run s (gesture start positions finish) =
  {| App.screen :=
       Analysis.setAnnotations
         (fun prev => prev ++ [drawn finish (snd start :: map snd positions)])
         (App.screen s);
     App.currentDrawing := None |}.
Proof.
  intros Hready Hans.
  assert (Hready' :
    drawReady {| App.screen := App.screen s; App.currentDrawing := None |}
    = true) by exact Hready.
  unfold gesture. cbn [App.run]. rewrite step_Grant_draw by exact Hready.
  rewrite run_app, run_continues by exact Hready'. cbn [App.run].
  rewrite step_Release_draw by assumption. reflexivity.
Qed.

(** C2, as the code has it.  In Draw mode a tap ([beginGesture] followed at
    once by [endGesture], the player answering the status query) is not
    dropped: it appends exactly one annotation, whose points are the one
    tapped position and whose type is ['line'], the only type a drawing
    ever gets. *)
Theorem tap_produces_one_point_line (s : App.State)
  (start : App.Env * Point) (finish : App.Env) :
  drawReady s = true ->
  answered (App.statusQuery finish) = true ->
  let s' := App.run s (gesture start [] finish) in
  exists a,
    Analysis.annotations (App.screen s') =
      Analysis.annotations (App.screen s) ++ [a]
    /\ type a = AnnotationType.line
    /\ points a = [snd start]
    /\ App.currentDrawing s' = None.
Proof.
  intros Hready Hans s'. subst s'.
  rewrite run_gesture by assumption.
  exists (drawn finish [snd start]). repeat split.
Qed.

Lemma tap_produces_one_point_line_witness :
  let s := App.run App.initial
             [(loadedAt 1000 0, pickPrimary "clip.mp4");
              (loadedAt 1001 0, App.PressDrawing)] in
  let s' := App.run s
              (gesture (loadedAt 1002 5000, {| x := 10; y := 10 |}) []
                 (loadedAt 1003 5000)) in
  drawReady s = true
  /\ exists a,
       Analysis.annotations (App.screen s') =
         Analysis.annotations (App.screen s) ++ [a]
       /\ type a = AnnotationType.line
       /\ points a = [{| x := 10; y := 10 |}]
       /\ App.currentDrawing s' = None.
Proof.
  intros s s'. split; [reflexivity|].
  apply (tap_produces_one_point_line s
           (loadedAt 1002 5000, {| x := 10; y := 10 |}) (loadedAt 1003 5000));
    reflexivity.
Defined.

(** C2 as stated fails: the annotation a tap leaves behind has type
    ['line'], not ['circle'] (the specification's Point). *)
Lemma tap_is_not_a_point :
  let s' := App.run App.initial
              ([(loadedAt 1000 0, pickPrimary "clip.mp4");
                (loadedAt 1001 0, App.PressDrawing)]
               ++ gesture (loadedAt 1002 5000, {| x := 10; y := 10 |}) []
                    (loadedAt 1003 5000)) in
  Analysis.annotations (App.screen s') =
    [{| id := JSString.lit "1003"; type := AnnotationType.line;
        points := [{| x := 10; y := 10 |}]; timestamp := 5;
        text := None |}]
  /\ existsb
       (fun a => AnnotationType.eqb (type a) AnnotationType.circle)
       (Analysis.annotations (App.screen s')) = false.
Proof. vm_compute. split; reflexivity. Qed.

(** C6.  In Draw mode a drag ([beginGesture(p0)], n >= 1 [continueGesture]
    calls, [endGesture], the player answering the status query) appends
    one annotation of type ['line'] whose points are [p0] followed by every
    reported position in arrival order: 1 + n points, none dropped. *)
Theorem drag_produces_line (s : App.State) (start : App.Env * Point)
  (positions : list (App.Env * Point)) (finish : App.Env) :
  drawReady s = true ->
  answered (App.statusQuery finish) = true ->
  (1 <= List.length positions)%nat ->
  let s' := App.run s (gesture start positions finish) in
  exists a,
    Analysis.annotations (App.screen s') =
      Analysis.annotations (App.screen s) ++ [a]
    /\ type a = AnnotationType.line
    /\ points a = snd start :: map snd positions
    /\ List.length (points a) = (1 + List.length positions)%nat
    /\ App.currentDrawing s' = None.
Proof.
  intros Hready Hans _ s'. subst s'.
  rewrite run_gesture by assumption.
  exists (drawn finish (snd start :: map snd positions)).
  repeat split. simpl. now rewrite length_map.
Qed.

(** The specification's scenario: (10,10), (20,10), (30,10), released with
    the player at 5 seconds. *)
Lemma drag_produces_line_witness :
  let s := App.run App.initial
             [(loadedAt 1000 0, pickPrimary "clip.mp4");
              (loadedAt 1001 0, App.PressDrawing)] in
  let positions := [(loadedAt 1003 5000, {| x := 20; y := 10 |});
                    (loadedAt 1004 5000, {| x := 30; y := 10 |})] in
  let s' := App.run s
              (gesture (loadedAt 1002 5000, {| x := 10; y := 10 |})
                 positions (loadedAt 1005 5000)) in
  drawReady s = true
  /\ exists a,
       Analysis.annotations (App.screen s') =
         Analysis.annotations (App.screen s) ++ [a]
       /\ type a = AnnotationType.line
       /\ points a = [{| x := 10; y := 10 |}; {| x := 20; y := 10 |};
                      {| x := 30; y := 10 |}]
       /\ List.length (points a) = 3%nat
       /\ App.currentDrawing s' = None.
Proof.
  intros s positions s'. split; [reflexivity|].
  apply (drag_produces_line s (loadedAt 1002 5000, {| x := 10; y := 10 |})
           positions (loadedAt 1005 5000)).
  - reflexivity.
  - reflexivity.
  - simpl. lia.
Defined.

(** ** Erasing *)

Lemma find_first_clicked (location : Point) (l : list Annotation) :
  forallb anchored l = true ->
  find_first (Layer.clicked (x location) (y location)) l =
  Returned (find (erasable location) l).
Proof.
  induction l as [|a l IH]; simpl; [reflexivity|].
  intro H. apply andb_prop in H. destruct H as [Ha Hl].
  assert (Hc : Layer.clicked (x location) (y location) a =
               Returned (erasable location a)).
  { unfold Layer.clicked, erasable, anchored in *.
    destruct (type a), (points a); try reflexivity; discriminate. }
  rewrite Hc. destruct (erasable location a); [reflexivity|].
  apply IH, Hl.
Qed.

(** What [find] returns is the first element, in list order, that passes. *)
Lemma find_first_in_order (A : Type) (f : A -> bool) (l : list A) :
  match find f l with
  | Some a =>
      exists before after,
        l = before ++ a :: after
        /\ forallb (fun b => negb (f b)) before = true
        /\ f a = true
  | None => forallb (fun b => negb (f b)) l = true
  end.
Proof.
  induction l as [|b l IH]; simpl; [reflexivity|].
  destruct (f b) eqn:Hb.
  - exists [], l. repeat split. exact Hb.
  - destruct (find f l) as [a|].
    + destruct IH as (before & after & Hl & Hbefore & Ha).
      exists (b :: before), after. subst l. simpl. rewrite Hb.
      repeat split; assumption.
    + simpl. exact IH.
Qed.

Lemma visibleAnnotations_all (l : list Annotation) (t : float) :
  forallb (fun a => nearTime (timestamp a) t) l = true ->
  visibleAnnotations l t = l.
Proof.
  unfold visibleAnnotations. induction l as [|a l IH]; simpl; [reflexivity|].
  intro H. apply andb_prop in H. destruct H as [Ha Hl].
  rewrite Ha, IH by exact Hl. reflexivity.
Qed.

(** C3, as the code has it.  With the eraser selected, and every annotation
    the overlay holds visible at the current time, [beginGesture] hit-tests
    the visible annotations in creation order: a text within 30 pixels of
    the point 20 pixels above its anchor, a circle within 10 pixels of its
    centre, a line within 10 pixels of a vertex (Euclidean distance from
    the gesture position).  The first annotation in creation order that
    qualifies is chosen and one removal request, for its id, is fired; when
    none qualifies no request is fired.  The draft is not touched. *)
Theorem erase_picks_first_hit (props : Layer.Props)
  (currentDrawing : option Drawing) (location : Point) :
  Layer.isEraserMode props = true ->
  Layer.isTextMode props = false ->
  forallb anchored (Layer.annotations props) = true ->
  forallb (fun a => nearTime (timestamp a) (Layer.currentTime props))
    (Layer.annotations props) = true ->
  let visible := Layer.rendered props in
  (exists a before after,
     visible = before ++ a :: after
     /\ forallb (fun b => negb (erasable location b)) before = true
     /\ erasable location a = true
     /\ Layer.onPanResponderGrant props currentDrawing location =
        Returned (currentDrawing, [Layer.onRemoveAnnotation (id a)]))
  \/ (forallb (fun b => negb (erasable location b)) visible = true
      /\ Layer.onPanResponderGrant props currentDrawing location =
         Returned (currentDrawing, [])).
Proof.
  intros He Ht Hanch Hvis visible. subst visible.
  unfold Layer.rendered. rewrite visibleAnnotations_all by exact Hvis.
  unfold Layer.onPanResponderGrant. rewrite He, Ht.
  rewrite andb_false_r. simpl.
  rewrite find_first_clicked by exact Hanch.
  pose proof (find_first_in_order _ (erasable location)
                (Layer.annotations props)) as Hfind.
  destruct (find (erasable location) (Layer.annotations props)) as [a|].
  - left. destruct Hfind as (before & after & Hl & Hbefore & Ha).
    exists a, before, after. repeat split; assumption.
  - right. split; [exact Hfind | reflexivity].
Qed.

(** The specification's scenario: a circle and a text, both at (5,5) and
    stamped 1 second, the eraser put down on (5,5) at 1 second.  The
    circle, created first, is the one removed. *)
Lemma erase_picks_first_hit_witness :
  let circle := {| id := JSString.lit "1000";
                   type := AnnotationType.circle;
                   points := [{| x := 5; y := 5 |}]; timestamp := 1;
                   text := None |} in
  let label := {| id := JSString.lit "2000";
                  type := AnnotationType.text;
                  points := [{| x := 5; y := 5 |}]; timestamp := 1;
                  text := Some (JSString.lit "check elbow") |} in
  let props := {| Layer.currentTime := 1;
                  Layer.annotations := [circle; label];
                  Layer.isDrawingMode := false; Layer.isTextMode := false;
                  Layer.isEraserMode := true |} in
  let location := {| x := 5; y := 5 |} in
  Layer.onPanResponderGrant props None location =
    Returned (None, [Layer.onRemoveAnnotation (JSString.lit "1000")])
  /\ ((exists a before after,
         Layer.rendered props = before ++ a :: after
         /\ forallb (fun b => negb (erasable location b)) before = true
         /\ erasable location a = true
         /\ Layer.onPanResponderGrant props None location =
            Returned (None, [Layer.onRemoveAnnotation (id a)]))
      \/ (forallb (fun b => negb (erasable location b))
            (Layer.rendered props) = true
          /\ Layer.onPanResponderGrant props None location =
             Returned (None, []))).
Proof.
  intros circle label props location. split; [vm_compute; reflexivity|].
  apply (erase_picks_first_hit props None location);
    vm_compute; reflexivity.
Defined.

(** C3 as stated fails: a text anchored at (50,50) lies 25 pixels from a
    touch at (50,75), inside the 30 pixel radius, yet the eraser measures
    from (50,30), finds 45 pixels and fires no removal request. *)
Lemma erase_text_offset :
  let label := {| id := JSString.lit "2000";
                  type := AnnotationType.text;
                  points := [{| x := 50; y := 50 |}]; timestamp := 1;
                  text := Some (JSString.lit "check elbow") |} in
  let props := {| Layer.currentTime := 1;
                  Layer.annotations := [label];
                  Layer.isDrawingMode := false; Layer.isTextMode := false;
                  Layer.isEraserMode := true |} in
  Layer.rendered props = [label]
  /\ (distance 50 50 50 75 <? 30) = true
  /\ Layer.onPanResponderGrant props None {| x := 50; y := 75 |} =
     Returned (None, []).
Proof. vm_compute. repeat split. Qed.

(** The eraser searches the whole list it is given: an annotation stamped
    1 second is found with the playback at 9 seconds, where the overlay
    does not render it. *)
Lemma erase_reaches_hidden :
  let circle := {| id := JSString.lit "1000";
                   type := AnnotationType.circle;
                   points := [{| x := 5; y := 5 |}]; timestamp := 1;
                   text := None |} in
  let props := {| Layer.currentTime := 9;
                  Layer.annotations := [circle];
                  Layer.isDrawingMode := false; Layer.isTextMode := false;
                  Layer.isEraserMode := true |} in
  Layer.rendered props = []
  /\ Layer.onPanResponderGrant props None {| x := 5; y := 5 |} =
     Returned (None, [Layer.onRemoveAnnotation (JSString.lit "1000")]).
Proof. vm_compute. split; reflexivity. Qed.

(** ** Dragging a text *)

Lemma find_moved (dragged : JSString.t) (offset location : Point)
  (l : list Annotation) :
  existsb (fun a => JSString.eqb (id a) dragged) l = true ->
  exists a,
    find (fun a => JSString.eqb (id a) dragged) l = Some a
    /\ find (fun a => JSString.eqb (id a) dragged)
         (map (DragLayer.moved dragged offset location) l) =
       Some (DragLayer.moved dragged offset location a).
Proof.
  induction l as [|b l IH]; simpl; [discriminate|].
  unfold DragLayer.moved at 1.
  destruct (JSString.eqb (id b) dragged) eqn:Hb; simpl.
  - intros _. exists b. rewrite Hb. split; [reflexivity|].
    unfold DragLayer.moved. now rewrite Hb.
  - rewrite Hb. exact IH.
Qed.

(** In the earlier overlay with drag-to-move, every pointer move of a
    drag makes the list one longer: the re-anchored record is handed to
    [onAddAnnotation], which appends it. *)
Lemma dragMove_appends (q : StatusQuery) (props : DragLayer.Props)
  (st : DragLayer.State) (location : Point) (dx : float)
  (dragged : JSString.t) (held : list DragLayer.Held) :
  DragLayer.isZoomMode props = false ->
  DragLayer.isDrawingMode props = false ->
  DragLayer.draggedAnnotation st = Some dragged ->
  JSString.truthy dragged = true ->
  existsb (fun a => JSString.eqb (id a) dragged)
    (DragLayer.annotations props) = true ->
  answered q = true ->
  exists a,
    find (fun a => JSString.eqb (id a) dragged)
      (DragLayer.annotations props) = Some a
    /\ DragLayer.dragMove q props st location dx held =
       held ++
       [DragLayer.Whole
          {| id := id a; type := type a;
             points := [{| x := x location - x (DragLayer.dragOffset st);
                           y := y location - y (DragLayer.dragOffset st) |}];
             timestamp := Analysis.positionSeconds q;
             text := text a |}].
Proof.
  intros Hz Hd Hdrag Htruthy Hex Hq.
  destruct (find_moved dragged (DragLayer.dragOffset st) location _ Hex)
    as (a & Ha & Hfind).
  exists a. split; [exact Ha|].
  unfold DragLayer.dragMove, DragLayer.onPanResponderMove.
  rewrite Hz, Hd, Hdrag, Htruthy, Hfind. simpl.
  apply find_some in Ha. destruct Ha as [_ Hid].
  unfold DragLayer.moved. rewrite Hid. simpl.
  unfold DragLayer.heldAdd.
  destruct q; try discriminate; reflexivity.
Qed.

(** The same overlay on concrete numbers: a text stamped 1 second and
    anchored at (50,50) is grabbed at (55,58) and the pointer moves to
    (80,90) while the player stands at 1050 ms.  The record in the list
    stays at (50,50), and a second record with the same id, anchored at
    (75,82) and stamped 1.05, is appended.  When no annotation carries
    the grabbed id, what is appended is the record of a timestamp
    alone. *)
Lemma drag_move_appends_copy :
  let label := {| id := JSString.lit "2000";
                  type := AnnotationType.text;
                  points := [{| x := 50; y := 50 |}]; timestamp := 1;
                  text := Some (JSString.lit "check elbow") |} in
  let props := {| DragLayer.currentTime := 1;
                  DragLayer.annotations := [label];
                  DragLayer.isDrawingMode := false;
                  DragLayer.isTextMode := false;
                  DragLayer.isEraserMode := false;
                  DragLayer.isZoomMode := false;
                  DragLayer.scale := 1 |} in
  let gone := {| DragLayer.currentTime := 1;
                 DragLayer.annotations := [];
                 DragLayer.isDrawingMode := false;
                 DragLayer.isTextMode := false;
                 DragLayer.isEraserMode := false;
                 DragLayer.isZoomMode := false;
                 DragLayer.scale := 1 |} in
  exists st,
    DragLayer.onStartShouldSetPanResponder props DragLayer.initial
      {| x := 55; y := 58 |} = Returned (st, true)
    /\ DragLayer.draggedAnnotation st = Some (JSString.lit "2000")
    /\ DragLayer.dragOffset st = {| x := 5; y := 8 |}
    /\ DragLayer.dragMove (Resolved (Loaded 1050)) props st
         {| x := 80; y := 90 |} 25 [DragLayer.Whole label] =
       [DragLayer.Whole label;
        DragLayer.Whole
          {| id := JSString.lit "2000"; type := AnnotationType.text;
             points := [{| x := 75; y := 82 |}]; timestamp := 1.05;
             text := Some (JSString.lit "check elbow") |}]
    /\ DragLayer.dragMove (Resolved (Loaded 1050)) gone st
         {| x := 80; y := 90 |} 25 [] =
       [DragLayer.TimestampOnly 1.05].
Proof.
  intros label props gone.
  exists {| DragLayer.currentDrawing := None;
            DragLayer.draggedAnnotation := Some (JSString.lit "2000");
            DragLayer.dragOffset := {| x := 5; y := 8 |};
            DragLayer.zoomStart := None |}.
  vm_compute. repeat split.
Qed.

(** ** Mode switches and resets *)

(** C5, as the code has it.  A mode switch changes the mode flags only: a
    pending draft stays pending and the switch itself creates no
    annotation; and once the pencil is off, [continueGesture] and
    [endGesture] leave the draft and the annotation list as they are. *)
Theorem mode_switch_keeps_draft (env : App.Env) (s : App.State)
  (e : App.Event) (draft : Drawing) :
  modeSwitch e = true ->
  App.currentDrawing s = Some draft ->
  let s' := App.step env s e in
  App.currentDrawing s' = Some draft
  /\ Analysis.annotations (App.screen s') =
     Analysis.annotations (App.screen s)
  /\ (Analysis.isDrawingMode (App.screen s') = false ->
      forall (env' : App.Env) (location : Point),
        App.step env' s' (App.Move location) = s'
        /\ App.step env' s' App.Release = s').
Proof.
  intros He Hdraft s'.
  assert (Hcd : App.currentDrawing s' = App.currentDrawing s).
  { subst s'. destruct e; try discriminate; unfold App.step;
      destruct (Analysis.primaryVideoUri (App.screen s)); reflexivity. }
  assert (Hann : Analysis.annotations (App.screen s') =
                 Analysis.annotations (App.screen s)).
  { subst s'. destruct e; try discriminate; unfold App.step;
      destruct (Analysis.primaryVideoUri (App.screen s)); reflexivity. }
  split; [now rewrite Hcd|]. split; [exact Hann|].
  intros Hoff env' location. clearbody s'.
  destruct s' as [scr cd]. simpl in *.
  unfold App.step, Layer.onPanResponderMove, Layer.onPanResponderRelease.
  simpl. rewrite Hoff.
  destruct (Analysis.primaryVideoUri scr), cd; split; reflexivity.
Qed.

Lemma mode_switch_keeps_draft_witness :
  let p := {| x := 10; y := 10 |} in
  let s := App.run App.initial
             [(loadedAt 1000 0, pickPrimary "clip.mp4");
              (loadedAt 1001 0, App.PressDrawing);
              (loadedAt 1002 0, App.Grant p)] in
  let draft := {| drawingType := AnnotationType.line;
                  drawingPoints := [p] |} in
  let s' := App.step (loadedAt 1003 0) s App.PressText in
  App.currentDrawing s = Some draft
  /\ App.currentDrawing s' = Some draft
  /\ Analysis.annotations (App.screen s') =
     Analysis.annotations (App.screen s)
  /\ (Analysis.isDrawingMode (App.screen s') = false ->
      forall (env' : App.Env) (location : Point),
        App.step env' s' (App.Move location) = s'
        /\ App.step env' s' App.Release = s').
Proof.
  intros p s draft s'. split; [reflexivity|].
  apply (mode_switch_keeps_draft (loadedAt 1003 0) s App.PressText);
    reflexivity.
Defined.

(** C5 as stated fails: after a switch from Draw to TextPlacement the
    draft is still there; and a draft that sat through two switches is
    finalized into an annotation by the release that follows. *)
Lemma mode_switch_does_not_discard :
  let p := {| x := 10; y := 10 |} in
  let opening := [(loadedAt 1000 0, pickPrimary "clip.mp4");
                  (loadedAt 1001 0, App.PressDrawing);
                  (loadedAt 1002 0, App.Grant p)] in
  App.currentDrawing
    (App.run App.initial (opening ++ [(loadedAt 1003 0, App.PressText)])) =
    Some {| drawingType := AnnotationType.line; drawingPoints := [p] |}
  /\ App.mode
       (App.run App.initial (opening ++ [(loadedAt 1003 0, App.PressText)]))
     = App.TextPlacement
  /\ Analysis.annotations
       (App.screen
          (App.run App.initial
             (opening ++ [(loadedAt 1003 0, App.PressEraser);
                          (loadedAt 1004 0, App.PressDrawing);
                          (loadedAt 1005 3000, App.Release)]))) =
     [{| id := JSString.lit "1005"; type := AnnotationType.line;
         points := [p]; timestamp := 3; text := None |}].
Proof. vm_compute. repeat split. Qed.

(** C7, as the code has it.  Picking a new primary video always leaves no
    annotations, no selected tool, no text prompt and the current time at
    zero, whatever the state before; the overlay's draft is not part of
    what is reset and stays as it was. *)
Theorem selectVideo_resets (env : App.Env) (s : App.State)
  (uri : JSString.t) :
  let s' := App.step env s (App.SelectVideo false (Returned (Some uri))) in
  Analysis.annotations (App.screen s') = []
  /\ App.mode s' = App.Idle
  /\ Analysis.isDrawingMode (App.screen s') = false
  /\ Analysis.showTextInput (App.screen s') = false
  /\ Analysis.textPosition (App.screen s') = None
  /\ Analysis.textAnnotation (App.screen s') = []
  /\ Analysis.currentTime (App.screen s') = 0
  /\ Analysis.primaryVideoUri (App.screen s') = Some uri
  /\ App.currentDrawing s' = App.currentDrawing s.
Proof. repeat split. Qed.

(** C7 as stated fails: a draft in progress when the video is replaced
    survives the reset. *)
Lemma selectVideo_keeps_draft :
  let p := {| x := 10; y := 10 |} in
  let s' := App.run App.initial
              [(loadedAt 1000 0, pickPrimary "clip.mp4");
               (loadedAt 1001 0, App.PressDrawing);
               (loadedAt 1002 0, App.Grant p);
               (loadedAt 1003 0, pickPrimary "next.mp4")] in
  App.currentDrawing s' =
    Some {| drawingType := AnnotationType.line; drawingPoints := [p] |}
  /\ Analysis.annotations (App.screen s') = []
  /\ App.mode s' = App.Idle.
Proof. vm_compute. repeat split. Qed.

(** ** Text placement *)

Lemma trimStart_blank (l : JSString.t) :
  forallb JSString.isWhiteSpace l = true -> JSString.trimStart l = [].
Proof.
  induction l as [|c l IH]; simpl; [reflexivity|].
  intro H. apply andb_prop in H. destruct H as [Hc Hl].
  rewrite Hc. apply IH, Hl.
Qed.

Lemma trimStart_nil (l : JSString.t) :
  JSString.trimStart l = [] -> forallb JSString.isWhiteSpace l = true.
Proof.
  induction l as [|c l IH]; simpl; [reflexivity|].
  destruct (JSString.isWhiteSpace c); [exact IH | discriminate].
Qed.

Lemma forallb_rev (A : Type) (f : A -> bool) (l : list A) :
  forallb f (rev l) = forallb f l.
Proof.
  induction l as [|a l IH]; simpl; [reflexivity|].
  rewrite forallb_app, IH. simpl. rewrite andb_true_r. apply andb_comm.
Qed.

(** What [trimStart] keeps is a suffix: blank or not is decided before. *)
Lemma trimStart_forallb (l : JSString.t) :
  forallb JSString.isWhiteSpace (JSString.trimStart l) =
  forallb JSString.isWhiteSpace l.
Proof.
  induction l as [|c l IH]; simpl; [reflexivity|].
  destruct (JSString.isWhiteSpace c) eqn:Hc; simpl; [exact IH|].
  now rewrite Hc.
Qed.

Lemma trim_blank (l : JSString.t) :
  forallb JSString.isWhiteSpace l = true -> JSString.trim l = [].
Proof.
  intro H. unfold JSString.trim. now rewrite trimStart_blank.
Qed.

Lemma trim_truthy (l : JSString.t) :
  forallb JSString.isWhiteSpace l = false ->
  JSString.truthy (JSString.trim l) = true.
Proof.
  intro H. unfold JSString.trim, JSString.trimEnd.
  destruct (rev (JSString.trimStart (rev (JSString.trimStart l))))
    as [|c r] eqn:Hrev; [|reflexivity].
  exfalso.
  apply (f_equal (@rev N)) in Hrev. rewrite rev_involutive in Hrev.
  simpl in Hrev. apply trimStart_nil in Hrev.
  rewrite forallb_rev, trimStart_forallb in Hrev. congruence.
Qed.

(** C8.  Submitting the text prompt with empty or whitespace-only input
    leaves the state as it is: no annotation is created and nothing is
    raised.  Submitting input with some other character, the player loaded
    and standing at [positionMillis], appends exactly one ['text']
    annotation, anchored at the prompted position, stamped with the
    player's position in seconds and labelled with the trimmed input, and
    closes the prompt. *)
Theorem text_submission (clock : N) (s : Analysis.State) :
  (forallb JSString.isWhiteSpace (Analysis.textAnnotation s) = true ->
   forall q, Analysis.handleTextSubmit clock q s = s)
  /\ (forallb JSString.isWhiteSpace (Analysis.textAnnotation s) = false ->
      forall (position : Point) (positionMillis : float),
        Analysis.textPosition s = Some position ->
        let s' := Analysis.handleTextSubmit clock
                    (Resolved (Loaded positionMillis)) s in
        Analysis.annotations s' =
          Analysis.annotations s ++
          [{| id := JSString.ofTimeValue clock;
              type := AnnotationType.text;
              points := [position];
              timestamp := positionMillis / 1000;
              text := Some (JSString.trim (Analysis.textAnnotation s)) |}]
        /\ Analysis.showTextInput s' = false
        /\ Analysis.textPosition s' = None
        /\ Analysis.textAnnotation s' = []).
Proof.
  split.
  - intros Hblank q. unfold Analysis.handleTextSubmit.
    rewrite (trim_blank _ Hblank). simpl.
    destruct (Analysis.textPosition s); reflexivity.
  - intros Hink position positionMillis Hpos s'. subst s'.
    unfold Analysis.handleTextSubmit.
    rewrite Hpos, (trim_truthy _ Hink). repeat split.
Qed.

(** The specification's scenario: the prompt opened at (50,50), the player
    at 2 seconds, ["check elbow"] typed with blanks around it; and the
    same prompt submitted with blanks only. *)
Lemma text_submission_witness :
  let prompt (input : string) :=
    Analysis.setPrompt (JSString.lit input) true
      (Some {| x := 50; y := 50 |})
      (Analysis.selectVideo false (Returned (Some (JSString.lit "clip.mp4")))
         Analysis.initial) in
  Analysis.handleTextSubmit 1000 (Resolved (Loaded 2000))
    (prompt "   "%string) = prompt "   "%string
  /\ Analysis.annotations
       (Analysis.handleTextSubmit 1000 (Resolved (Loaded 2000))
          (prompt "  check elbow "%string)) =
     [{| id := JSString.lit "1000"; type := AnnotationType.text;
         points := [{| x := 50; y := 50 |}]; timestamp := 2;
         text := Some (JSString.lit "check elbow") |}].
Proof.
  intro prompt. split.
  - apply (proj1 (text_submission 1000 (prompt "   "%string))). reflexivity.
  - apply (proj1 (proj2 (text_submission 1000 (prompt "  check elbow "%string))
                    eq_refl {| x := 50; y := 50 |} 2000 eq_refl)).
Defined.

(** C10.  When the player reports a not-loaded status as a drawing is
    released or a text is submitted, the annotation is created all the
    same, stamped 0 whatever playback time the screen last showed. *)
Theorem unloaded_player_stamps_zero (s : App.State)
  (start : App.Env * Point) (positions : list (App.Env * Point))
  (finish : App.Env) :
  App.statusQuery finish = Resolved NotLoaded ->
  (drawReady s = true ->
   exists a,
     Analysis.annotations
       (App.screen (App.run s (gesture start positions finish))) =
       Analysis.annotations (App.screen s) ++ [a]
     /\ points a = snd start :: map snd positions
     /\ timestamp a = 0)
  /\ (forall position : Point,
        Analysis.textPosition (App.screen s) = Some position ->
        forallb JSString.isWhiteSpace
          (Analysis.textAnnotation (App.screen s)) = false ->
        exists a,
          Analysis.annotations
            (Analysis.handleTextSubmit (App.now finish)
               (App.statusQuery finish) (App.screen s)) =
            Analysis.annotations (App.screen s) ++ [a]
          /\ type a = AnnotationType.text
          /\ points a = [position]
          /\ timestamp a = 0).
Proof.
  intro Hq. split.
  - intro Hready. rewrite run_gesture; [|exact Hready|now rewrite Hq].
    exists (drawn finish (snd start :: map snd positions)).
    unfold drawn. rewrite Hq. repeat split.
  - intros position Hpos Hink. unfold Analysis.handleTextSubmit.
    rewrite Hpos, (trim_truthy _ Hink), Hq. eexists. repeat split.
Qed.

(** The screen shows 5 seconds when the player turns unloaded: the line
    released then is stamped 0. *)
Lemma unloaded_player_stamps_zero_witness :
  let unloaded clock := {| App.now := clock;
                           App.statusQuery := Resolved NotLoaded |} in
  let s := App.run App.initial
             [(loadedAt 1000 0, pickPrimary "clip.mp4");
              (loadedAt 1001 5000, App.PlaybackStatusUpdate (Loaded 5000));
              (loadedAt 1002 5000, App.PressDrawing)] in
  let start := (unloaded 1003%N, {| x := 10; y := 10 |}) in
  let positions := [(unloaded 1004%N, {| x := 20; y := 10 |})] in
  Analysis.currentTime (App.screen s) = 5
  /\ exists a,
       Analysis.annotations
         (App.screen (App.run s (gesture start positions (unloaded 1005%N)))) =
         Analysis.annotations (App.screen s) ++ [a]
       /\ points a = [{| x := 10; y := 10 |}; {| x := 20; y := 10 |}]
       /\ timestamp a = 0.
Proof.
  intros unloaded s start positions. split; [vm_compute; reflexivity|].
  apply (proj1 (unloaded_player_stamps_zero s start positions
                  (unloaded 1005%N) eq_refl)).
  reflexivity.
Defined.

(** ** Annotation ids *)

Lemma of_uint_inj (d d' : Decimal.uint) :
  JSString.of_uint d = JSString.of_uint d' -> d = d'.
Proof.
  revert d'. induction d; destruct d'; simpl; unfold JSString.digit;
    intro H; try discriminate; try reflexivity;
    injection H as H; f_equal; auto.
Qed.

(** Distinct clock readings print as distinct ids. *)
Lemma ofTimeValue_inj (n m : N) :
  JSString.ofTimeValue n = JSString.ofTimeValue m -> n = m.
Proof.
  intro H. apply Unsigned.to_uint_inj, of_uint_inj, H.
Qed.

Lemma handleAddAnnotation_change (clock : N) (q : StatusQuery)
  (a : Annotation) (scr : Analysis.State) :
  id a = JSString.ofTimeValue clock ->
  listChange clock (Analysis.annotations scr)
    (Analysis.annotations (Analysis.handleAddAnnotation q a scr)).
Proof.
  intro Hid. unfold Analysis.handleAddAnnotation.
  destruct q; simpl; try apply Kept; apply Appended; exact Hid.
Qed.

Lemma handleTextSubmit_change (clock : N) (q : StatusQuery)
  (scr : Analysis.State) :
  listChange clock (Analysis.annotations scr)
    (Analysis.annotations (Analysis.handleTextSubmit clock q scr)).
Proof.
  unfold Analysis.handleTextSubmit.
  destruct (Analysis.textPosition scr); [|apply Kept].
  destruct (JSString.truthy _); [|apply Kept].
  destruct q; simpl; try apply Kept; apply Appended; reflexivity.
Qed.

Lemma step_change (env : App.Env) (s : App.State) (e : App.Event) :
  listChange (App.now env) (Analysis.annotations (App.screen s))
    (Analysis.annotations (App.screen (App.step env s e))).
Proof.
  destruct s as [scr cd].
  destruct e; unfold App.step; simpl;
    try (destruct (Analysis.primaryVideoUri scr); simpl; apply Kept).
  - (* SelectVideo *)
    unfold Analysis.selectVideo.
    destruct picked as [[uri|]|]; try apply Kept.
    destruct isSecondary; simpl; [apply Kept | apply Emptied].
  - (* PlaybackStatusUpdate *)
    destruct (Analysis.primaryVideoUri scr); simpl; [|apply Kept].
    destruct status; apply Kept.
  - (* Grant *)
    destruct (Analysis.primaryVideoUri scr); simpl; [|apply Kept].
    unfold Layer.onPanResponderGrant. simpl.
    destruct (Analysis.isDrawingMode scr), (Analysis.isTextMode scr),
      (Analysis.isEraserMode scr); simpl; try apply Kept;
      destruct (find_first _ _) as [[a|]|]; simpl;
      try apply Kept; apply Filtered.
  - (* Move *)
    destruct (Analysis.primaryVideoUri scr); simpl; [|apply Kept].
    unfold Layer.onPanResponderMove. simpl.
    destruct cd; [destruct (Analysis.isDrawingMode scr)|]; simpl;
      apply Kept.
  - (* Release *)
    destruct (Analysis.primaryVideoUri scr); simpl; [|apply Kept].
    unfold Layer.onPanResponderRelease. simpl.
    destruct cd; [destruct (Analysis.isDrawingMode scr)|]; simpl;
      try apply Kept.
    apply handleAddAnnotation_change. reflexivity.
  - (* ChangeText *)
    destruct (Analysis.primaryVideoUri scr); simpl; [|apply Kept].
    destruct (Analysis.showTextInput scr); simpl; apply Kept.
  - (* SubmitText *)
    destruct (Analysis.primaryVideoUri scr); simpl; [|apply Kept].
    destruct (Analysis.showTextInput scr); simpl; [|apply Kept].
    apply handleTextSubmit_change.
  - (* CancelText *)
    destruct (Analysis.primaryVideoUri scr); simpl; [|apply Kept].
    destruct (Analysis.showTextInput scr); simpl; apply Kept.
Qed.

(** *** Records are immutable *)



Lemma NoDup_map_filter (A B : Type) (f : A -> B) (keep : A -> bool)
  (l : list A) :
  NoDup (map f l) -> NoDup (map f (filter keep l)).
Proof.
  induction l as [|a l IH]; simpl; intro H; [constructor|].
  inversion H as [|b m Hnotin Hrest]; subst.
  destruct (keep a); simpl; [|auto].
  constructor; [|auto].
  intro Hin. apply Hnotin. apply in_map_iff in Hin.
  destruct Hin as (c & Hc & Hin). apply filter_In in Hin.
  apply in_map_iff. exists c. tauto.
Qed.

Lemma idsFrom_change (past : list N) (clock : N) (l l' : list Annotation) :
  idsFrom past l -> ~ In clock past -> listChange clock l l' ->
  idsFrom (past ++ [clock]) l'.
Proof.
  intros [Hnodup Hfrom] Hfresh Hchange.
  assert (Hweak : forall k : list Annotation,
             Forall (fun a => exists n,
                       In n past /\ id a = JSString.ofTimeValue n) k ->
             Forall (fun a => exists n,
                       In n (past ++ [clock])
                       /\ id a = JSString.ofTimeValue n) k).
  { intros k Hk. eapply Forall_impl; [|exact Hk].
    intros a (n & Hn & Ha). exists n. split; [|exact Ha].
    apply in_or_app. now left. }
  destruct Hchange as [| |keep|a Hid].
  - split; [exact Hnodup | apply Hweak, Hfrom].
  - split; constructor.
  - split; [apply NoDup_map_filter, Hnodup|].
    apply Hweak. apply Forall_forall. intros a Ha.
    apply filter_In in Ha. rewrite Forall_forall in Hfrom.
    apply Hfrom. tauto.
  - split.
    + rewrite map_app. simpl.
      apply NoDup_app; [exact Hnodup | repeat constructor; intros [] |].
      intros i Hi [Heq|[]]. subst i.
      apply in_map_iff in Hi. destruct Hi as (b & Hb & Hin).
      rewrite Forall_forall in Hfrom.
      destruct (Hfrom b Hin) as (n & Hn & Hbn).
      rewrite Hbn, Hid in Hb. apply ofTimeValue_inj in Hb.
      subst n. contradiction.
    + apply Forall_app. split; [apply Hweak, Hfrom|].
      constructor; [|constructor]. exists clock. split; [|exact Hid].
      apply in_or_app. right. now left.
Qed.

(** The events that make the list longer are those that append one
    annotation, whose id prints the clock reading of the event. *)
Lemma creates_spec (env : App.Env) (s : App.State) (e : App.Event) :
  creates env s e = true <->
  exists a,
    Analysis.annotations (App.screen (App.step env s e)) =
      Analysis.annotations (App.screen s) ++ [a]
    /\ id a = JSString.ofTimeValue (App.now env).
Proof.
  unfold creates. rewrite Nat.ltb_lt. split.
  - intro Hlen. destruct (step_change env s e) as [| |keep|a Hid].
    + lia.
    + simpl in Hlen. lia.
    + pose proof (filter_length_le keep
                    (Analysis.annotations (App.screen s))). lia.
    + exists a. split; [reflexivity | exact Hid].
  - intros (a & -> & _). rewrite length_app. simpl. lia.
Qed.

(** An event that does not make the list longer keeps the invariant with
    the same past. *)
Lemma idsFrom_kept (past : list N) (clock : N) (l l' : list Annotation) :
  idsFrom past l -> listChange clock l l' ->
  Nat.ltb (List.length l) (List.length l') = false ->
  idsFrom past l'.
Proof.
  intros [Hnodup Hfrom] Hchange Hlen.
  destruct Hchange as [| |keep|a Hid].
  - split; assumption.
  - split; constructor.
  - split; [apply NoDup_map_filter, Hnodup|].
    apply Forall_forall. intros a Ha.
    apply filter_In in Ha. rewrite Forall_forall in Hfrom.
    apply Hfrom. tauto.
  - rewrite length_app in Hlen. simpl in Hlen.
    apply Nat.ltb_ge in Hlen. lia.
Qed.

Lemma run_idsFrom (trace : list (App.Env * App.Event)) :
  forall (past : list N) (s : App.State),
    idsFrom past (Analysis.annotations (App.screen s)) ->
    NoDup (past ++ creationReadings s trace) ->
    idsFrom (past ++ creationReadings s trace)
      (Analysis.annotations (App.screen (App.run s trace))).
Proof.
  induction trace as [|[env e] rest IH]; intros past s Hinv Hclock; simpl.
  - now rewrite app_nil_r.
  - simpl in Hclock. pose proof (step_change env s e) as Hchange.
    destruct (creates env s e) eqn:Hcreates.
    + rewrite app_assoc in *. apply IH; [|exact Hclock].
      apply idsFrom_change with (l := Analysis.annotations (App.screen s));
        [exact Hinv | | exact Hchange].
      intro Hin. apply NoDup_app_remove_r in Hclock.
      apply NoDup_remove_2 in Hclock. apply Hclock.
      now rewrite app_nil_r.
    + simpl in *. apply IH; [|exact Hclock].
      exact (idsFrom_kept _ _ _ _ Hinv Hchange Hcreates).
Qed.

(** C9, as the code has it.  An id is the decimal print of the millisecond
    clock at the event that creates the annotation.  In every run from the
    opening of the screen in which the clock reads differently at each
    event that creates an annotation (a released drawing or tap, a
    submitted text), whatever it reads at the other events and however
    the events interleave, the annotations held have pairwise distinct
    ids. *)
Theorem ids_distinct_when_creations_differ
  (trace : list (App.Env * App.Event)) :
  NoDup (creationReadings App.initial trace) ->
  NoDup (ids (App.run App.initial trace)).
Proof.
  intro Hclock.
  apply (run_idsFrom trace [] App.initial); [|exact Hclock].
  split; constructor.
Qed.

(** A run whose clock stands still through every event but the two that
    create: a drawing released at 1004 and a text submitted at 1008. *)
Lemma ids_distinct_when_creations_differ_witness :
  let trace :=
    [(loadedAt 1000 0, pickPrimary "clip.mp4");
     (loadedAt 1000 0, App.PressDrawing);
     (loadedAt 1000 5000, App.Grant {| x := 10; y := 10 |});
     (loadedAt 1000 5000, App.Move {| x := 20; y := 10 |});
     (loadedAt 1000 5000, App.PlaybackStatusUpdate (Loaded 5000));
     (loadedAt 1004 5000, App.Release);
     (loadedAt 1004 5000, App.PressText);
     (loadedAt 1004 5000, App.Grant {| x := 50; y := 50 |});
     (loadedAt 1004 5000, App.ChangeText (JSString.lit "check elbow"));
     (loadedAt 1008 5000, App.SubmitText);
     (loadedAt 1008 5000, App.Release)] in
  creationReadings App.initial trace = [1004%N; 1008%N]
  /\ ids (App.run App.initial trace) =
     [JSString.lit "1004"; JSString.lit "1008"]
  /\ NoDup (ids (App.run App.initial trace)).
Proof.
  intro trace. split; [vm_compute; reflexivity|].
  split; [vm_compute; reflexivity|].
  apply (ids_distinct_when_creations_differ trace).
  vm_compute. repeat constructor; simpl; intuition discriminate.
Defined.

(** C9 as stated fails: two texts submitted while the clock reads the same
    millisecond carry the same id. *)
Lemma ids_repeat_within_a_millisecond :
  let trace :=
    [(loadedAt 1000 0, pickPrimary "clip.mp4");
     (loadedAt 1001 0, App.PressText);
     (loadedAt 1002 0, App.Grant {| x := 50; y := 50 |});
     (loadedAt 1003 0, App.ChangeText (JSString.lit "check elbow"));
     (loadedAt 1004 0, App.SubmitText);
     (loadedAt 1004 0, App.Grant {| x := 80; y := 50 |});
     (loadedAt 1004 0, App.ChangeText (JSString.lit "head still"));
     (loadedAt 1004 0, App.SubmitText)] in
  ids (App.run App.initial trace) = [JSString.lit "1004"; JSString.lit "1004"]
  /\ map points (Analysis.annotations (App.screen (App.run App.initial trace)))
     = [[{| x := 50; y := 50 |}]; [{| x := 80; y := 50 |}]].
Proof. vm_compute. split; reflexivity. Qed.

(** ** States of a run are well formed *)

Lemma forallb_anchored_filter (keep : Annotation -> bool)
  (l : list Annotation) :
  forallb anchored l = true -> forallb anchored (filter keep l) = true.
Proof.
  rewrite !forallb_forall. intros H a Ha.
  apply filter_In in Ha. apply H. tauto.
Qed.

Lemma forallb_anchored_snoc (l : list Annotation) (a : Annotation) :
  forallb anchored l = true -> anchored a = true ->
  forallb anchored (l ++ [a]) = true.
Proof.
  intros Hl Ha. rewrite forallb_app, Hl. simpl. now rewrite Ha.
Qed.

Ltac wf_split := unfold wellFormed; simpl; repeat split; try assumption.

Lemma step_wellFormed (env : App.Env) (s : App.State) (e : App.Event) :
  wellFormed s -> wellFormed (App.step env s e).
Proof.
  destruct s as [[uri uri2 drawing textMode eraser l input shown pos time] cd].
  intros (Hanch & Hdraft & Htools).
  unfold atMostOneTool in Htools. simpl in Hanch, Hdraft, Htools.
  destruct e; unfold App.step; simpl;
    try (destruct uri; [|wf_split; fail]).
  - (* PressDrawing *) now destruct drawing; wf_split.
  - (* PressText *) now destruct textMode; wf_split.
  - (* PressEraser *) now destruct eraser; wf_split.
  - (* SelectVideo *)
    destruct picked as [[picked|]|]; try (wf_split; fail).
    destruct isSecondary; wf_split.
  - (* PlaybackStatusUpdate *)
    destruct status; wf_split.
  - (* Grant *)
    unfold Layer.onPanResponderGrant. simpl.
    destruct drawing, textMode, eraser; try discriminate; simpl;
      try (wf_split; fail);
      destruct (find_first _ _) as [[a|]|]; wf_split;
      apply forallb_anchored_filter, Hanch.
  - (* Move *)
    destruct cd; [destruct drawing|]; wf_split.
  - (* Release *)
    destruct cd as [draft|]; [destruct drawing|]; try (wf_split; fail).
    simpl. destruct (App.statusQuery env) as [| |status]; wf_split;
      apply forallb_anchored_snoc; try assumption;
      unfold anchored; simpl; now rewrite Hdraft.
  - (* ChangeText *)
    destruct shown; wf_split.
  - (* SubmitText *)
    destruct shown; [|wf_split; fail].
    unfold Analysis.handleTextSubmit. simpl.
    destruct pos; [|wf_split; fail].
    destruct (JSString.truthy _); [|wf_split; fail].
    destruct (App.statusQuery env) as [| |status]; wf_split;
      apply forallb_anchored_snoc; try assumption; reflexivity.
  - (* CancelText *)
    destruct shown; wf_split.
Qed.

Lemma run_wellFormed (trace : list (App.Env * App.Event)) :
  forall s, wellFormed s -> wellFormed (App.run s trace).
Proof.
  induction trace as [|[env e] rest IH]; intros s Hs; simpl; [exact Hs|].
  apply IH, step_wellFormed, Hs.
Qed.

(** In every state a run reaches with the eraser selected, the text tool
    is off and every annotation has the point its hit test reads: the
    eraser's search returns. *)
Lemma reachable_eraser_ready (trace : list (App.Env * App.Event)) :
  let s := App.run App.initial trace in
  Analysis.isEraserMode (App.screen s) = true ->
  Analysis.isTextMode (App.screen s) = false
  /\ forallb anchored (Analysis.annotations (App.screen s)) = true.
Proof.
  intros s He.
  destruct (run_wellFormed trace App.initial) as (Hanch & _ & Htools).
  { repeat split. }
  fold s in Hanch, Htools. split; [|exact Hanch].
  unfold atMostOneTool in Htools. rewrite He in Htools.
  destruct (Analysis.isDrawingMode (App.screen s)),
    (Analysis.isTextMode (App.screen s)); try discriminate; reflexivity.
Qed.

(** * Further properties of the code *)

(** ** Binary64 comparisons *)

Lemma SFcompare_antisym (a b : spec_float) :
  SFcompare b a = option_map CompOpp (SFcompare a b).
Proof.
  destruct a as [sa|sa| |sa ma ea], b as [sb|sb| |sb mb eb]; simpl;
    try reflexivity;
    try (destruct sa, sb; reflexivity);
    try (destruct sa; reflexivity); try (destruct sb; reflexivity).
  rewrite (Z.compare_antisym ea eb).
  rewrite !Pos.compare_cont_spec. simpl.
  rewrite (Pos.compare_antisym ma mb).
  destruct sa, sb; simpl; try reflexivity;
    destruct (ea ?= eb)%Z; simpl; try reflexivity;
    destruct (ma ?= mb)%positive; reflexivity.
Qed.

(** A number that equals itself is not NaN, and compares with every other
    such number. *)
Lemma isNaN_false_compare (a b : float) :
  DragLayer.isNaN a = false -> DragLayer.isNaN b = false ->
  exists c,
    SFcompare (Prim2SF a) (Prim2SF b) = Some c
    /\ SFcompare (Prim2SF b) (Prim2SF a) = Some (CompOpp c).
Proof.
  unfold DragLayer.isNaN. rewrite !negb_false_iff, !eqb_spec.
  unfold SFeqb. intros Ha Hb.
  rewrite (SFcompare_antisym (Prim2SF a) (Prim2SF b)).
  destruct (Prim2SF a), (Prim2SF b); simpl in *;
    try discriminate; eexists; split; reflexivity.
Qed.

Lemma leb_refl (a : float) : DragLayer.isNaN a = false -> (a <=? a) = true.
Proof.
  unfold DragLayer.isNaN. rewrite negb_false_iff, eqb_spec, leb_spec.
  unfold SFeqb, SFleb.
  destruct (SFcompare (Prim2SF a) (Prim2SF a)) as [[]|];
    intro H; try discriminate; reflexivity.
Qed.

(** [Math.max] of two numbers that are not NaN is one of them and is below
    neither. *)
Lemma Math_max_spec (a b : float) :
  DragLayer.isNaN a = false -> DragLayer.isNaN b = false ->
  let r := DragLayer.Math_max a b in
  (r = a \/ r = b) /\ (a <=? r) = true /\ (b <=? r) = true.
Proof.
  intros Ha Hb r. subst r. unfold DragLayer.Math_max.
  rewrite Ha, Hb. simpl.
  destruct (isNaN_false_compare a b Ha Hb) as (c & Hab & Hba).
  pose proof (leb_refl a Ha) as Haa. pose proof (leb_refl b Hb) as Hbb.
  assert (Hlt : (a <? b) = match c with Lt => true | _ => false end).
  { rewrite ltb_spec. unfold SFltb. rewrite Hab. now destruct c. }
  assert (Hgt : (b <? a) = match c with Gt => true | _ => false end).
  { rewrite ltb_spec. unfold SFltb. rewrite Hba. now destruct c. }
  assert (Hle : (a <=? b) = match c with Gt => false | _ => true end).
  { rewrite leb_spec. unfold SFleb. rewrite Hab. now destruct c. }
  assert (Hge : (b <=? a) = match c with Lt => false | _ => true end).
  { rewrite leb_spec. unfold SFleb. rewrite Hba. now destruct c. }
  rewrite Hlt, Hgt. destruct c.
  - destruct (classify a); rewrite ?Haa, ?Hbb, ?Hle, ?Hge; auto.
  - rewrite Hle, Hbb. auto.
  - rewrite Haa, Hge. auto.
Qed.

Lemma Math_min_spec (a b : float) :
  DragLayer.isNaN a = false -> DragLayer.isNaN b = false ->
  let r := DragLayer.Math_min a b in
  (r = a \/ r = b) /\ (r <=? a) = true /\ (r <=? b) = true.
Proof.
  intros Ha Hb r. subst r. unfold DragLayer.Math_min.
  rewrite Ha, Hb. simpl.
  destruct (isNaN_false_compare a b Ha Hb) as (c & Hab & Hba).
  pose proof (leb_refl a Ha) as Haa. pose proof (leb_refl b Hb) as Hbb.
  assert (Hlt : (a <? b) = match c with Lt => true | _ => false end).
  { rewrite ltb_spec. unfold SFltb. rewrite Hab. now destruct c. }
  assert (Hgt : (b <? a) = match c with Gt => true | _ => false end).
  { rewrite ltb_spec. unfold SFltb. rewrite Hba. now destruct c. }
  assert (Hle : (a <=? b) = match c with Gt => false | _ => true end).
  { rewrite leb_spec. unfold SFleb. rewrite Hab. now destruct c. }
  assert (Hge : (b <=? a) = match c with Lt => false | _ => true end).
  { rewrite leb_spec. unfold SFleb. rewrite Hba. now destruct c. }
  rewrite Hlt, Hgt. destruct c.
  - destruct (classify a); rewrite ?Haa, ?Hbb, ?Hle, ?Hge; auto.
  - rewrite Haa, Hle. auto.
  - rewrite Hge, Hbb. auto.
Qed.

Lemma Math_max_nan (a b : float) :
  DragLayer.isNaN a || DragLayer.isNaN b = true ->
  DragLayer.Math_max a b = nan.
Proof. intro H. unfold DragLayer.Math_max. now rewrite H. Qed.

Lemma Math_min_nan (a b : float) :
  DragLayer.isNaN a || DragLayer.isNaN b = true ->
  DragLayer.Math_min a b = nan.
Proof. intro H. unfold DragLayer.Math_min. now rewrite H. Qed.

(** [<=] is transitive on numbers. *)
Lemma SFcompare_le_trans (a b c : spec_float) :
  SFleb a b = true -> SFleb b c = true -> SFleb a c = true.
Proof.
  unfold SFleb.
  destruct a as [sa|sa| |sa ma ea], b as [sb|sb| |sb mb eb],
    c as [sc|sc| |sc mc ec]; simpl;
    try discriminate; try reflexivity;
    try (destruct sa; simpl; try discriminate; try reflexivity;
         destruct sb; simpl; try discriminate; try reflexivity;
         destruct sc; simpl; try discriminate; reflexivity);
    try (destruct sa, sb; simpl; try discriminate; reflexivity);
    try (destruct sa, sc; simpl; try discriminate; reflexivity);
    try (destruct sb, sc; simpl; try discriminate; reflexivity).
  rewrite !Pos.compare_cont_spec. simpl.
  destruct sa, sb, sc; simpl; try discriminate; try reflexivity;
    destruct (ea ?= eb)%Z eqn:Hab; try discriminate;
    destruct (eb ?= ec)%Z eqn:Hbc; try discriminate;
    destruct (ea ?= ec)%Z eqn:Hac; try reflexivity;
    rewrite ?Z.compare_eq_iff, ?Z.compare_lt_iff, ?Z.compare_gt_iff in *;
    try lia;
    destruct (ma ?= mb)%positive eqn:Hmab; simpl; try discriminate;
    destruct (mb ?= mc)%positive eqn:Hmbc; simpl; try discriminate;
    destruct (ma ?= mc)%positive eqn:Hmac; simpl; try reflexivity;
    rewrite ?Pos.compare_eq_iff, ?Pos.compare_lt_iff, ?Pos.compare_gt_iff
      in *; intros; try lia.
Qed.

Lemma leb_trans (a b c : float) :
  (a <=? b) = true -> (b <=? c) = true -> (a <=? c) = true.
Proof. rewrite !leb_spec. apply SFcompare_le_trans. Qed.

(** ** What every reachable state satisfies *)

Lemma forallb_shaped_filter (keep : Annotation -> bool)
  (l : list Annotation) :
  forallb shaped l = true -> forallb shaped (filter keep l) = true.
Proof.
  rewrite !forallb_forall. intros H a Ha.
  apply filter_In in Ha. apply H. tauto.
Qed.

Lemma forallb_shaped_snoc (l : list Annotation) (a : Annotation) :
  forallb shaped l = true -> shaped a = true ->
  forallb shaped (l ++ [a]) = true.
Proof.
  intros Hl Ha. rewrite forallb_app, Hl. simpl. now rewrite Ha.
Qed.

Ltac coherent_split :=
  unfold coherent, promptCoherent, atMostOneTool, App.mode in *; simpl in *;
  repeat split; try assumption; try discriminate; try reflexivity;
  try match goal with
      | H : ?u = None -> _ /\ _ /\ _, H' : ?u = None |- _ =>
          destruct (H H') as (? & ? & ?); assumption
      | H : ?A /\ _ |- ?A => exact (proj1 H)
      | H : _ /\ ?B |- ?B => exact (proj2 H)
      end.

Lemma step_coherent (env : App.Env) (s : App.State) (e : App.Event) :
  coherent s -> coherent (App.step env s e).
Proof.
  destruct s as [[uri uri2 drawing textMode eraser l input shown pos time] cd].
  intros (Hshaped & Hdraft & Htools & Hprompt & Hnovideo).
  unfold atMostOneTool in Htools. unfold promptCoherent in Hprompt.
  simpl in Hshaped, Hdraft, Htools, Hprompt, Hnovideo.
  destruct e; unfold App.step; simpl;
    try (destruct uri; [|coherent_split; fail]).
  - (* PressDrawing *) now destruct drawing; coherent_split.
  - (* PressText *) now destruct textMode; coherent_split.
  - (* PressEraser *) now destruct eraser; coherent_split.
  - (* SelectVideo *)
    destruct picked as [[picked|]|]; try (coherent_split; fail).
    destruct isSecondary; coherent_split.
  - (* PlaybackStatusUpdate *)
    destruct status; coherent_split.
  - (* Grant *)
    unfold Layer.onPanResponderGrant. simpl.
    destruct drawing, textMode, eraser; try discriminate; simpl;
      try (coherent_split; fail);
      destruct (find_first _ _) as [[a|]|]; coherent_split;
      apply forallb_shaped_filter, Hshaped.
  - (* Move *)
    destruct cd as [draft|]; [destruct drawing|]; coherent_split;
      try apply Hdraft.
    intro Hnil. apply app_eq_nil in Hnil. destruct Hnil. discriminate.
  - (* Release *)
    destruct cd as [draft|]; [destruct drawing|];
      try (coherent_split; fail).
    simpl. destruct Hdraft as [Hline Hpoints].
    destruct (App.statusQuery env) as [| |status]; coherent_split;
      apply forallb_shaped_snoc; try assumption;
      unfold shaped; simpl; rewrite Hline;
      now destruct (drawingPoints draft).
  - (* ChangeText *)
    destruct shown; coherent_split; now destruct pos.
  - (* SubmitText *)
    destruct shown; [|coherent_split; fail].
    unfold Analysis.handleTextSubmit. simpl.
    destruct pos; [|coherent_split; fail].
    destruct (JSString.truthy _) eqn:Hlabel; [|coherent_split; fail].
    destruct (App.statusQuery env) as [| |status]; coherent_split;
      apply forallb_shaped_snoc; try assumption; exact Hlabel.
  - (* CancelText *)
    destruct shown; coherent_split.
Qed.

Lemma run_coherent (trace : list (App.Env * App.Event)) :
  forall s, coherent s -> coherent (App.run s trace).
Proof.
  induction trace as [|[env e] rest IH]; intros s Hs; simpl; [exact Hs|].
  apply IH, step_coherent, Hs.
Qed.

Lemma initial_coherent : coherent App.initial.
Proof. coherent_split. Qed.

Lemma JSString_eqb_eq (s1 s2 : JSString.t) :
  JSString.eqb s1 s2 = true <-> s1 = s2.
Proof.
  revert s2. induction s1 as [|c1 r1 IH]; destruct s2 as [|c2 r2]; simpl;
    try (split; [discriminate | discriminate]); [tauto|].
  rewrite andb_true_iff, N.eqb_eq, IH.
  split; [intros [-> ->]; reflexivity | intro H; injection H; auto].
Qed.

Lemma shaped_anchored (a : Annotation) : shaped a = true -> anchored a = true.
Proof.
  unfold shaped, anchored.
  destruct (type a), (points a) as [|p [|q r]], (text a);
    try discriminate; reflexivity.
Qed.

(** X1.  In every state a run reaches from the opening of the screen, at
    most one of the three tools is selected: a selected tool means the
    other two flags are off. *)
Theorem reachable_one_tool (trace : list (App.Env * App.Event)) :
  let scr := App.screen (App.run App.initial trace) in
  (Analysis.isDrawingMode scr = true ->
   Analysis.isTextMode scr = false /\ Analysis.isEraserMode scr = false)
  /\ (Analysis.isTextMode scr = true ->
      Analysis.isDrawingMode scr = false
      /\ Analysis.isEraserMode scr = false)
  /\ (Analysis.isEraserMode scr = true ->
      Analysis.isDrawingMode scr = false
      /\ Analysis.isTextMode scr = false).
Proof.
  intro scr.
  destruct (run_coherent trace App.initial initial_coherent)
    as (_ & _ & Htools & _).
  fold scr in Htools. unfold atMostOneTool in Htools.
  destruct (Analysis.isDrawingMode scr), (Analysis.isTextMode scr),
    (Analysis.isEraserMode scr); try discriminate;
    repeat split; intros; try discriminate; reflexivity.
Qed.

(** X2.  Every annotation a run creates has a shape the rest of the code
    can read: none is a circle, each has a first point; a text has exactly
    its anchor and a label with at least one character, a line has no
    label.  A draft in progress is a line with at least one point. *)
Theorem reachable_annotations_shaped (trace : list (App.Env * App.Event)) :
  let s := App.run App.initial trace in
  (forall a, In a (Analysis.annotations (App.screen s)) ->
     AnnotationType.eqb (type a) AnnotationType.circle = false
     /\ points a <> []
     /\ (type a = AnnotationType.text ->
         exists p label,
           points a = [p] /\ text a = Some label /\ label <> [])
     /\ (type a = AnnotationType.line -> text a = None))
  /\ (forall draft, App.currentDrawing s = Some draft ->
        drawingType draft = AnnotationType.line
        /\ drawingPoints draft <> []).
Proof.
  intro s.
  destruct (run_coherent trace App.initial initial_coherent)
    as (Hshaped & Hdraft & _).
  fold s in Hshaped, Hdraft. split.
  - intros a Ha. rewrite forallb_forall in Hshaped.
    specialize (Hshaped a Ha). unfold shaped in Hshaped.
    destruct (type a), (points a) as [|p [|q r]], (text a) as [label|];
      try discriminate; repeat split; try discriminate.
    intros _. exists p, label. repeat split.
    intro Hnil. subst label. discriminate.
  - intros draft Hsome. rewrite Hsome in Hdraft. exact Hdraft.
Qed.

Lemma reachable_annotations_shaped_witness :
  let trace :=
    [(loadedAt 1000 0, pickPrimary "clip.mp4");
     (loadedAt 1001 0, App.PressText);
     (loadedAt 1002 0, App.Grant {| x := 50; y := 50 |});
     (loadedAt 1003 0, App.ChangeText (JSString.lit " check elbow "));
     (loadedAt 1004 2000, App.SubmitText)] in
  let a := {| id := JSString.lit "1004"; type := AnnotationType.text;
              points := [{| x := 50; y := 50 |}]; timestamp := 2;
              text := Some (JSString.lit "check elbow") |} in
  Analysis.annotations (App.screen (App.run App.initial trace)) = [a]
  /\ exists p label,
       points a = [p] /\ text a = Some label /\ label <> [].
Proof.
  intros trace a. split; [vm_compute; reflexivity|].
  apply (proj1 (reachable_annotations_shaped trace) a);
    [vm_compute; left; reflexivity | reflexivity].
Defined.

(** X3.  In every reachable state the text prompt is shown exactly while
    a position is pending, and while it is hidden no input is kept. *)
Theorem reachable_prompt_coherent (trace : list (App.Env * App.Event)) :
  let scr := App.screen (App.run App.initial trace) in
  (Analysis.showTextInput scr = true ->
   exists position, Analysis.textPosition scr = Some position)
  /\ (Analysis.showTextInput scr = false ->
      Analysis.textPosition scr = None
      /\ Analysis.textAnnotation scr = []).
Proof.
  intro scr.
  destruct (run_coherent trace App.initial initial_coherent)
    as (_ & _ & _ & Hprompt & _).
  fold scr in Hprompt. unfold promptCoherent in Hprompt.
  destruct (Analysis.showTextInput scr), (Analysis.textPosition scr) as [p|];
    try discriminate; split; intro H; try discriminate.
  - exists p. reflexivity.
  - split; [reflexivity|]. apply JSString_eqb_eq, Hprompt.
Qed.

(** X4.  Opening the text prompt and cancelling it is a round trip: in a
    reachable state with the text tool selected and the prompt hidden,
    a touch on the overlay, any typing and Cancel lead back to the very
    same state. *)
Theorem text_prompt_cancel_round_trip
  (trace : list (App.Env * App.Event)) (env1 env2 env3 : App.Env)
  (position : Point) (typed : JSString.t) :
  let s := App.run App.initial trace in
  Analysis.isTextMode (App.screen s) = true ->
  Analysis.showTextInput (App.screen s) = false ->
  App.run s [(env1, App.Grant position); (env2, App.ChangeText typed);
             (env3, App.CancelText)] = s.
Proof.
  intros s Htext Hhidden.
  destruct (reachable_prompt_coherent trace) as [_ Hprompt].
  destruct (run_coherent trace App.initial initial_coherent)
    as (_ & _ & _ & _ & Hnovideo).
  fold s in Hprompt, Hnovideo. destruct (Hprompt Hhidden) as [Hpos Hinput].
  destruct s as [[uri uri2 drawing textMode eraser l input shown pos time] cd].
  simpl in *. subst textMode shown pos input.
  destruct uri as [uri|].
  - unfold App.step, Layer.onPanResponderGrant. simpl.
    rewrite andb_false_r. reflexivity.
  - destruct (Hnovideo eq_refl) as (_ & _ & Hidle).
    unfold App.mode in Hidle. simpl in Hidle. discriminate.
Qed.

Lemma text_prompt_cancel_round_trip_witness :
  let trace := [(loadedAt 1000 0, pickPrimary "clip.mp4");
                (loadedAt 1001 0, App.PressText)] in
  let s := App.run App.initial trace in
  Analysis.isTextMode (App.screen s) = true
  /\ App.run s [(loadedAt 1002 0, App.Grant {| x := 50; y := 50 |});
                (loadedAt 1003 0, App.ChangeText (JSString.lit "elbow"));
                (loadedAt 1004 0, App.CancelText)] = s.
Proof.
  intros trace s. split; [reflexivity|].
  apply (text_prompt_cancel_round_trip trace (loadedAt 1002 0)
           (loadedAt 1003 0) (loadedAt 1004 0) {| x := 50; y := 50 |}
           (JSString.lit "elbow")); reflexivity.
Defined.

(** ** The annotation list under events *)

Lemma filter_all (A : Type) (l : list A) : filter (fun _ => true) l = l.
Proof. induction l as [|a l IH]; simpl; [reflexivity | now rewrite IH]. Qed.

Lemma filter_none (A : Type) (l : list A) : filter (fun _ => false) l = [].
Proof. induction l as [|a l IH]; simpl; [reflexivity | exact IH]. Qed.

(** X5.  No event edits an annotation in place or reorders the list: after
    any event the list is a selection of the annotations held before, in
    their order, followed by at most one new annotation, whose id prints
    the clock reading of the event. *)
Theorem step_keeps_existing_annotations (env : App.Env) (s : App.State)
  (e : App.Event) :
  exists keep created,
    Analysis.annotations (App.screen (App.step env s e)) =
      filter keep (Analysis.annotations (App.screen s)) ++ created
    /\ (created = []
        \/ exists a,
             created = [a] /\ id a = JSString.ofTimeValue (App.now env)).
Proof.
  destruct (step_change env s e) as [| |keep|a Hid].
  - exists (fun _ => true), []. rewrite filter_all, app_nil_r. auto.
  - exists (fun _ => false), []. rewrite filter_none. auto.
  - exists keep, []. rewrite app_nil_r. auto.
  - exists (fun _ => true), [a]. rewrite filter_all. split; [reflexivity|].
    right. exists a. auto.
Qed.

(** X6.  [handleRemoveAnnotation] removes exactly the annotations carrying
    the id: what is left are the others, and when no annotation carries
    the id the state is returned as it was. *)
Theorem handleRemoveAnnotation_spec (annotationId : JSString.t)
  (s : Analysis.State) :
  (forall a,
     In a (Analysis.annotations
             (Analysis.handleRemoveAnnotation annotationId s)) <->
     In a (Analysis.annotations s) /\ id a <> annotationId)
  /\ ((forall a, In a (Analysis.annotations s) -> id a <> annotationId) ->
      Analysis.handleRemoveAnnotation annotationId s = s).
Proof.
  split.
  - intro a. unfold Analysis.handleRemoveAnnotation. simpl.
    rewrite filter_In, negb_true_iff.
    rewrite <- not_true_iff_false, JSString_eqb_eq. reflexivity.
  - intro Hnone. destruct s as [u u2 d t er l input shown pos time].
    unfold Analysis.handleRemoveAnnotation, Analysis.setAnnotations.
    simpl in *. f_equal.
    induction l as [|a l IH]; simpl; [reflexivity|].
    destruct (JSString.eqb (id a) annotationId) eqn:Heq; simpl.
    + apply JSString_eqb_eq in Heq. exfalso.
      apply (Hnone a); [now left | exact Heq].
    + f_equal. apply IH. intros b Hb. apply Hnone. now right.
Qed.

Lemma handleRemoveAnnotation_spec_witness :
  let a := {| id := JSString.lit "1000"; type := AnnotationType.line;
              points := [{| x := 1; y := 2 |}]; timestamp := 0;
              text := None |} in
  let s := Analysis.setAnnotations (fun _ => [a]) Analysis.initial in
  Analysis.handleRemoveAnnotation (JSString.lit "2000") s = s.
Proof.
  intros a s.
  apply (proj2 (handleRemoveAnnotation_spec (JSString.lit "2000") s)).
  intros b [Hb|[]]. subst b. discriminate.
Defined.

Lemma JSString_eqb_refl_negb (i : JSString.t) :
  negb (JSString.eqb i i) = true <-> False.
Proof.
  assert (H : JSString.eqb i i = true) by now apply JSString_eqb_eq.
  rewrite H. simpl. split; [discriminate | tauto].
Qed.

(** X7.  In a reachable state with the eraser selected a touch never
    throws and never touches the draft.  When some annotation passes the
    hit test, the first one in creation order is erased together with
    every annotation sharing its id, and the others stay; when none
    passes, the state is unchanged. *)
Theorem erase_in_reachable_state (trace : list (App.Env * App.Event))
  (env : App.Env) (location : Point) :
  let s := App.run App.initial trace in
  Analysis.isEraserMode (App.screen s) = true ->
  let s' := App.step env s (App.Grant location) in
  App.currentDrawing s' = App.currentDrawing s
  /\ match find (erasable location)
             (Analysis.annotations (App.screen s)) with
     | Some a =>
         App.screen s' = Analysis.handleRemoveAnnotation (id a) (App.screen s)
         /\ ~ In a (Analysis.annotations (App.screen s'))
     | None => s' = s
     end.
Proof.
  intros s He s'. subst s'.
  destruct (reachable_one_tool trace) as (_ & _ & Hflags).
  destruct (run_coherent trace App.initial initial_coherent)
    as (Hshaped & _ & _ & _ & Hnovideo).
  fold s in Hflags, Hshaped, Hnovideo.
  destruct (Hflags He) as [Hd Ht].
  assert (Hanch : forallb anchored (Analysis.annotations (App.screen s))
                  = true).
  { rewrite forallb_forall in *. intros a Ha.
    apply shaped_anchored, Hshaped, Ha. }
  destruct s as [[uri uri2 drawing textMode eraser l input shown pos time] cd].
  simpl in *. subst drawing textMode eraser.
  destruct uri as [uri|].
  - unfold App.step, Layer.onPanResponderGrant. simpl.
    rewrite find_first_clicked by exact Hanch.
    destruct (find (erasable location) l) as [a|]; simpl.
    + repeat split. rewrite filter_In, JSString_eqb_refl_negb. intuition.
    + split; reflexivity.
  - destruct (Hnovideo eq_refl) as (_ & _ & Hidle).
    unfold App.mode in Hidle. simpl in Hidle. discriminate.
Qed.

Lemma erase_in_reachable_state_witness :
  let trace :=
    [(loadedAt 1000 0, pickPrimary "clip.mp4");
     (loadedAt 1001 0, App.PressDrawing)]
    ++ gesture (loadedAt 1002 5000, {| x := 10; y := 10 |})
         [(loadedAt 1003 5000, {| x := 20; y := 10 |})] (loadedAt 1004 5000)
    ++ [(loadedAt 1005 5000, App.PressEraser)] in
  let s := App.run App.initial trace in
  let s' := App.step (loadedAt 1006 9000) s
              (App.Grant {| x := 21; y := 11 |}) in
  List.length (Analysis.annotations (App.screen s)) = 1%nat
  /\ Analysis.annotations (App.screen s') = []
  /\ App.currentDrawing s' = App.currentDrawing s.
Proof.
  intros trace s s'. split; [vm_compute; reflexivity|].
  split; [vm_compute; reflexivity|].
  apply (proj1 (erase_in_reachable_state trace (loadedAt 1006 9000)
                  {| x := 21; y := 11 |} eq_refl)).
Defined.

(** ** The time window and non-finite times *)

Lemma Prim2SF_infinity : Prim2SF infinity = S754_infinity false.
Proof. vm_compute. reflexivity. Qed.

Lemma Prim2SF_tenth : exists m e, Prim2SF 0.1 = S754_finite false m e.
Proof. vm_compute. eexists. eexists. reflexivity. Qed.

Lemma SFsub_diag (prec emax : Z) (a : spec_float) :
  SFsub prec emax a a =
  match a with
  | S754_zero _ | S754_finite _ _ _ => S754_zero false
  | _ => S754_nan
  end.
Proof.
  destruct a as [s|s| |s m e]; simpl; try reflexivity;
    try (destruct s; reflexivity).
  now rewrite Z.sub_diag.
Qed.

(** An annotation's own timestamp lies inside its window exactly when the
    timestamp is finite. *)
Lemma nearTime_self (t : float) : nearTime t t = isFinite t.
Proof.
  unfold nearTime, isFinite.
  rewrite !ltb_spec, !abs_spec, sub_spec, Prim2SF_infinity.
  unfold SF64sub. rewrite SFsub_diag.
  destruct Prim2SF_tenth as (m & e & ->).
  destruct (Prim2SF t) as [s|s| |s mt et]; reflexivity.
Qed.

(** Inside the window both times are finite. *)
Lemma nearTime_finite (ts t : float) :
  nearTime ts t = true -> isFinite ts = true /\ isFinite t = true.
Proof.
  unfold nearTime, isFinite.
  rewrite !ltb_spec, !abs_spec, sub_spec, Prim2SF_infinity.
  destruct Prim2SF_tenth as (m & e & ->). unfold SF64sub.
  destruct (Prim2SF ts) as [s1|s1| |s1 m1 e1],
    (Prim2SF t) as [s2|s2| |s2 m2 e2];
    try (intros _; split; reflexivity);
    simpl; try discriminate;
    destruct s1; try discriminate; destruct s2; discriminate.
Qed.

(** X8.  The overlay renders an annotation only while its timestamp and
    the playback time are both finite numbers, and an annotation with a
    finite timestamp is rendered when the playback time equals it. *)
Theorem rendered_iff_finite_times (props : Layer.Props) (a : Annotation) :
  (In a (Layer.rendered props) ->
   isFinite (timestamp a) = true
   /\ isFinite (Layer.currentTime props) = true)
  /\ (In a (Layer.annotations props) ->
      Layer.currentTime props = timestamp a ->
      (In a (Layer.rendered props) <-> isFinite (timestamp a) = true)).
Proof.
  unfold Layer.rendered, visibleAnnotations. split.
  - intro Hin. apply filter_In in Hin. apply nearTime_finite, Hin.
  - intros Hin ->. rewrite filter_In, nearTime_self. tauto.
Qed.

Lemma rendered_iff_finite_times_witness :
  let a := {| id := JSString.lit "1000"; type := AnnotationType.line;
              points := [{| x := 1; y := 2 |}]; timestamp := infinity;
              text := None |} in
  let props := {| Layer.currentTime := infinity;
                  Layer.annotations := [a];
                  Layer.isDrawingMode := false; Layer.isTextMode := false;
                  Layer.isEraserMode := false |} in
  Layer.rendered props = []
  /\ (In a (Layer.rendered props) <-> isFinite (timestamp a) = true).
Proof.
  intros a props. split; [vm_compute; reflexivity|].
  apply (proj2 (rendered_iff_finite_times props a));
    [left; reflexivity | reflexivity].
Defined.

(** X9.  A finished drawing is on screen as soon as the player reports the
    position the drawing was stamped with, provided that position is a
    finite number of seconds. *)
Theorem drawing_shown_at_its_position (s : App.State)
  (start : App.Env * Point) (positions : list (App.Env * Point))
  (finish env' : App.Env) (positionMillis : float) :
  drawReady s = true ->
  App.statusQuery finish = Resolved (Loaded positionMillis) ->
  isFinite (positionMillis / 1000) = true ->
  let s' := App.run s (gesture start positions finish
                       ++ [(env', App.PlaybackStatusUpdate
                                    (Loaded positionMillis))]) in
  In (drawn finish (snd start :: map snd positions))
    (Layer.rendered (Analysis.layerProps (App.screen s'))).
Proof.
  intros Hready Hq Hfinite s'. subst s'.
  rewrite run_app, run_gesture; [|exact Hready|now rewrite Hq].
  destruct (drawReady_flags s Hready) as (uri & Hu & _).
  cbn [App.run]. unfold App.step. simpl. rewrite Hu. simpl.
  unfold Layer.rendered, visibleAnnotations. simpl.
  rewrite filter_In. split.
  - apply in_or_app. right. now left.
  - unfold drawn. simpl. rewrite Hq. simpl.
    now rewrite nearTime_self.
Qed.

Lemma drawing_shown_at_its_position_witness :
  let s := App.run App.initial
             [(loadedAt 1000 0, pickPrimary "clip.mp4");
              (loadedAt 1001 0, App.PressDrawing)] in
  let start := (loadedAt 1002 5000, {| x := 10; y := 10 |}) in
  let positions := [(loadedAt 1003 5000, {| x := 20; y := 10 |})] in
  let s' := App.run s (gesture start positions (loadedAt 1004 5000)
                       ++ [(loadedAt 1005 5000,
                            App.PlaybackStatusUpdate (Loaded 5000))]) in
  isFinite (5000 / 1000) = true
  /\ In (drawn (loadedAt 1004 5000) (snd start :: map snd positions))
       (Layer.rendered (Analysis.layerProps (App.screen s'))).
Proof.
  intros s start positions s'. split; [vm_compute; reflexivity|].
  apply (drawing_shown_at_its_position s start positions
           (loadedAt 1004 5000) (loadedAt 1005 5000) 5000);
    vm_compute; reflexivity.
Defined.

(** ** Zoom and the loop range *)

Lemma limitedScale_in_range (last dx : float) :
  DragLayer.isNaN (last * (1 + dx / 200)) = false ->
  inZoomRange (Zoom.limitedScale last dx) = true.
Proof.
  intro Hraw. unfold Zoom.limitedScale, inZoomRange.
  destruct (Math_max_spec (last * (1 + dx / 200)) 0.5 Hraw eq_refl)
    as (Hm & _ & Hlow).
  set (m := DragLayer.Math_max (last * (1 + dx / 200)) 0.5) in *.
  assert (Hmn : DragLayer.isNaN m = false).
  { destruct Hm as [-> | ->]; [exact Hraw | reflexivity]. }
  destruct (Math_min_spec m 3 Hmn eq_refl) as (Hr & _ & Hhigh).
  rewrite Hhigh, andb_true_r.
  destruct Hr as [-> | ->]; [exact Hlow | reflexivity].
Qed.

Lemma limitedScale_nan (last dx : float) :
  DragLayer.isNaN (last * (1 + dx / 200)) = true ->
  Zoom.limitedScale last dx = nan.
Proof.
  intro Hraw. unfold Zoom.limitedScale.
  rewrite (Math_max_nan (last * (1 + dx / 200)) 0.5) by now rewrite Hraw.
  reflexivity.
Qed.

(** X10.  Panning the screen keeps the zoom scale between 0.5 and 3: from
    a scale in that range, a pointer move leaves a scale in that range
    whatever the horizontal travel, unless the scaled value is NaN. *)
Theorem zoom_stays_in_range (c : Zoom.Closure) (st : Zoom.State)
  (dx : float) :
  inZoomRange (Zoom.currentScale st) = true ->
  DragLayer.isNaN (Zoom.lastScale st * (1 + dx / 200)) = false ->
  inZoomRange (Zoom.currentScale (Zoom.onPanResponderMove c st dx)) = true.
Proof.
  intros Hin Hraw. unfold Zoom.onPanResponderMove.
  destruct (Zoom.toolSelected c); simpl; [exact Hin|].
  apply limitedScale_in_range, Hraw.
Qed.

Lemma zoom_stays_in_range_witness :
  let c := {| Zoom.isDrawingMode := false; Zoom.isTextMode := false;
              Zoom.isEraserMode := false; Zoom.scale := 1 |} in
  let st := Zoom.onPanResponderGrant c Zoom.initial in
  Zoom.currentScale (Zoom.onPanResponderMove c st 1000) = 3
  /\ Zoom.currentScale (Zoom.onPanResponderMove c st (-1000)) = 0.5
  /\ inZoomRange (Zoom.currentScale (Zoom.onPanResponderMove c st 1000))
     = true.
Proof.
  intros c st. split; [vm_compute; reflexivity|].
  split; [vm_compute; reflexivity|].
  apply (zoom_stays_in_range c st 1000); vm_compute; reflexivity.
Defined.

(** X11.  Every scale the overlay with zoom asks its host to set is
    between 0.5 and 3, or NaN when the scaled value is NaN. *)
Theorem overlay_zoom_in_range (props : DragLayer.Props)
  (st : DragLayer.State) (location : Point) (dx newScale : float) :
  In (DragLayer.onScaleChange newScale)
    (snd (DragLayer.onPanResponderMove props st location dx)) ->
  newScale = nan \/ inZoomRange newScale = true.
Proof.
  unfold DragLayer.onPanResponderMove.
  destruct (if DragLayer.isZoomMode props then DragLayer.zoomStart st
            else None) as [start|].
  - simpl. intros [H|[]]. injection H as <-.
    fold (Zoom.limitedScale start dx).
    destruct (DragLayer.isNaN (start * (1 + dx / 200))) eqn:Hraw.
    + left. apply limitedScale_nan, Hraw.
    + right. apply limitedScale_in_range, Hraw.
  - destruct (if DragLayer.isDrawingMode props
              then DragLayer.currentDrawing st else None);
      [intros []|].
    destruct (DragLayer.draggedAnnotation st) as [dragged|]; [|intros []].
    destruct (JSString.truthy dragged); [|intros []].
    destruct (find _ _); simpl; intros [H|[]]; discriminate.
Qed.

Lemma overlay_zoom_in_range_witness :
  let props := {| DragLayer.currentTime := 0; DragLayer.annotations := [];
                  DragLayer.isDrawingMode := false;
                  DragLayer.isTextMode := false;
                  DragLayer.isEraserMode := false;
                  DragLayer.isZoomMode := true; DragLayer.scale := 2 |} in
  let location := {| x := 0; y := 0 |} in
  exists st,
    DragLayer.onStartShouldSetPanResponder props DragLayer.initial location
    = Returned (st, true)
    /\ snd (DragLayer.onPanResponderMove props st location 50) =
       [DragLayer.onScaleChange 2.5]
    /\ (2.5 = nan \/ inZoomRange 2.5 = true).
Proof.
  intros props location.
  exists {| DragLayer.currentDrawing := None;
            DragLayer.draggedAnnotation := None;
            DragLayer.dragOffset := {| x := 0; y := 0 |};
            DragLayer.zoomStart := Some 2 |}.
  split; [reflexivity|]. split; [vm_compute; reflexivity|].
  apply (overlay_zoom_in_range props
           {| DragLayer.currentDrawing := None;
              DragLayer.draggedAnnotation := None;
              DragLayer.dragOffset := {| x := 0; y := 0 |};
              DragLayer.zoomStart := Some 2 |} location 50 2.5).
  vm_compute. left. reflexivity.
Defined.

(** X12.  The loop slider keeps its thumbs apart unless a NaN is
    involved.  [handleStartChange] reports the end unchanged and, when
    neither the given value nor the end minus 0.1 is NaN, a start that is
    at most the value and at most the end minus 0.1; when one of the two
    is NaN the start it reports is NaN.  [handleEndChange] reports the
    start unchanged and, when neither the value nor the start plus 0.1 is
    NaN, an end that is at least the value and at least the start plus
    0.1; when one of the two is NaN the end it reports is NaN. *)
Theorem slider_keeps_thumbs_apart (st : LoopSlider.State) (value : float) :
  let lower := snd (LoopSlider.handleStartChange st value) in
  let upper := snd (LoopSlider.handleEndChange st value) in
  snd lower = LoopSlider.endSliderValue st
  /\ fst upper = LoopSlider.startSliderValue st
  /\ (if DragLayer.isNaN value
         || DragLayer.isNaN (LoopSlider.endSliderValue st - 0.1)
      then fst lower = nan
      else (fst lower <=? LoopSlider.endSliderValue st - 0.1) = true
           /\ (fst lower <=? value) = true)
  /\ (if DragLayer.isNaN value
         || DragLayer.isNaN (LoopSlider.startSliderValue st + 0.1)
      then snd upper = nan
      else (LoopSlider.startSliderValue st + 0.1 <=? snd upper) = true
           /\ (value <=? snd upper) = true).
Proof.
  intros lower upper. subst lower upper. simpl.
  split; [reflexivity|]. split; [reflexivity|]. split.
  - destruct (DragLayer.isNaN value
              || DragLayer.isNaN (LoopSlider.endSliderValue st - 0.1))
      eqn:Hnan.
    + apply Math_min_nan, Hnan.
    + apply orb_false_elim in Hnan. destruct Hnan as [Hvalue Hother].
      destruct (Math_min_spec value _ Hvalue Hother) as (_ & Hv & He).
      auto.
  - destruct (DragLayer.isNaN value
              || DragLayer.isNaN (LoopSlider.startSliderValue st + 0.1))
      eqn:Hnan.
    + apply Math_max_nan, Hnan.
    + apply orb_false_elim in Hnan. destruct Hnan as [Hvalue Hother].
      destruct (Math_max_spec value _ Hvalue Hother) as (_ & Hv & Hs).
      auto.
Qed.

(** Thumbs at 2 and 6: a start pushed to 9 is held at 5.9 and an end
    pulled to 1 is held at 2.1; with the end thumb at NaN the start
    reported is NaN. *)
Lemma slider_keeps_thumbs_apart_witness :
  let st := {| LoopSlider.startSliderValue := 2;
               LoopSlider.endSliderValue := 6 |} in
  let broken := {| LoopSlider.startSliderValue := 2;
                   LoopSlider.endSliderValue := nan |} in
  snd (LoopSlider.handleStartChange st 9) = (5.9, 6)
  /\ snd (LoopSlider.handleEndChange st 1) = (2, 2.1)
  /\ ((fst (snd (LoopSlider.handleStartChange st 9)) <=? 6 - 0.1) = true
      /\ (fst (snd (LoopSlider.handleStartChange st 9)) <=? 9) = true)
  /\ fst (snd (LoopSlider.handleStartChange broken 1)) = nan.
Proof.
  intros st broken. split; [vm_compute; reflexivity|].
  split; [vm_compute; reflexivity|]. split.
  - exact (proj1 (proj2 (proj2 (slider_keeps_thumbs_apart st 9)))).
  - exact (proj1 (proj2 (proj2 (slider_keeps_thumbs_apart broken 1)))).
Defined.



(** X14.  A custom loop wraps: once [handleLoopRangeChange] has taken a
    range other than the whole video, a status update whose position is
    at or past the end of the range makes the screen seek to the start
    of the range, and an update before the end issues no call. *)
Theorem loop_wraps_at_end (player player' : Playback.Player)
  (start finish : float) (st : Playback.State)
  (positionMillis : float) (playing : bool) (durationMillis : option float) :
  Playback.mounted player = true ->
  Playback.setIsLoopingResolves player = true ->
  (start =? 0) && (finish =? Playback.videoDuration st) = false ->
  Playback.mounted player' = true ->
  let st1 := fst (Playback.handleLoopRangeChange player start finish st) in
  let calls :=
    snd (Playback.handlePlaybackStatusUpdate player'
           (Playback.Loaded positionMillis playing durationMillis) st1) in
  Playback.loopStartTime st1 = start
  /\ Playback.loopEndTime st1 = Some finish
  /\ ((finish <=? positionMillis / 1000) = true ->
      exists rest,
        calls = Playback.setPositionAsync (start * 1000) :: rest)
  /\ ((finish <=? positionMillis / 1000) = false -> calls = []).
Proof.
  intros Hm Hr Hcustom Hm' st1 calls.
  assert (Hst1 : st1 = Playback.setLoop start (Some finish) st).
  { subst st1. unfold Playback.handleLoopRangeChange.
    rewrite Hm, Hcustom, Hr. simpl.
    destruct (Playback.status player) as [[|pm pl dur]|]; try reflexivity.
    destruct ((pm / 1000 <? start) || (finish <? pm / 1000));
      [destruct (Playback.setPositionResolves player)|]; reflexivity. }
  subst calls. rewrite Hst1. simpl. rewrite Hm'. simpl.
  repeat split.
  - intros ->. eexists. reflexivity.
  - intros ->. reflexivity.
Qed.

Lemma loop_wraps_at_end_witness :
  let player := {| Playback.mounted := true;
                   Playback.setIsLoopingResolves := true;
                   Playback.status :=
                     Returned (Playback.Loaded 7000 true (Some 10000));
                   Playback.setPositionResolves := true;
                   Playback.playResolves := true |} in
  let st := {| Playback.loopStartTime := 0; Playback.loopEndTime := None;
               Playback.videoDuration := 10;
               Playback.currentTime := 7; Playback.isPlaying := true |} in
  Playback.handleLoopRangeChange player 2 6 st =
    (Playback.setLoop 2 (Some 6) st,
     [Playback.setIsLoopingAsync false; Playback.getStatusAsync;
      Playback.setPositionAsync 2000])
  /\ exists rest,
       snd (Playback.handlePlaybackStatusUpdate player
              (Playback.Loaded 6000 true (Some 10000))
              (fst (Playback.handleLoopRangeChange player 2 6 st))) =
       Playback.setPositionAsync (2 * 1000) :: rest.
Proof.
  intros player st. split; [vm_compute; reflexivity|].
  apply (proj1 (proj2 (proj2
           (loop_wraps_at_end player player 2 6 st 6000 true (Some 10000)
              eq_refl eq_refl eq_refl eq_refl)))).
  vm_compute. reflexivity.
Defined.

(** ** What is drawn *)

Lemma segments_ends (annotationId : JSString.t) (rest : list Point) :
  forall (prev : Point) (index : nat),
    map Render.ends
      (Render.marks
         (Render.Elements (Render.segments annotationId prev index rest))) =
    map Some (combine (prev :: rest) rest).
Proof.
  induction rest as [|p rest IH]; intros prev index; [reflexivity|].
  simpl. destruct prev as [px py], p as [qx qy]. simpl. f_equal.
  exact (IH {| x := qx; y := qy |} (S index)).
Qed.

(** X15.  A line is drawn as the segments joining its consecutive points,
    in order: one segment fewer than it has points, so a line of a single
    point draws nothing.  Rendering a line never throws. *)
Theorem line_renders_its_segments (a : Annotation) :
  type a = AnnotationType.line ->
  exists r,
    Render.renderAnnotation a = Returned r
    /\ map Render.ends (Render.marks r) =
       map Some (combine (points a) (tl (points a)))
    /\ List.length (Render.marks r) = (List.length (points a) - 1)%nat.
Proof.
  intro Hline. unfold Render.renderAnnotation. rewrite Hline.
  eexists. split; [reflexivity|].
  assert (Hends :
    map Render.ends
      (Render.marks
         (Render.Elements
            match points a with
            | [] => []
            | first :: rest =>
                None :: Render.segments (id a) first 1 rest
            end)) =
    map Some (combine (points a) (tl (points a)))).
  { destruct (points a) as [|first rest]; [reflexivity|].
    exact (segments_ends (id a) rest first 1). }
  split; [exact Hends|].
  apply (f_equal (@List.length _)) in Hends.
  rewrite !length_map, length_combine in Hends. rewrite Hends.
  destruct (points a) as [|first rest]; cbn [tl List.length];
    [reflexivity|].
  rewrite Nat.sub_1_r, Nat.pred_succ. apply Nat.min_r. lia.
Qed.

Lemma line_renders_its_segments_witness :
  let a := {| id := JSString.lit "1000"; type := AnnotationType.line;
              points := [{| x := 10; y := 10 |}; {| x := 20; y := 10 |};
                         {| x := 30; y := 10 |}];
              timestamp := 5; text := None |} in
  Render.renderAnnotation a =
    Returned
      (Render.Elements
         [None;
          Some (Render.Line (JSString.lit "1000-1") 10 10 20 10);
          Some (Render.Line (JSString.lit "1000-2") 20 10 30 10)])
  /\ exists r,
       Render.renderAnnotation a = Returned r
       /\ map Render.ends (Render.marks r) =
          map Some (combine (points a) (tl (points a)))
       /\ List.length (Render.marks r) = 2%nat.
Proof.
  intro a. split; [vm_compute; reflexivity|].
  apply (line_renders_its_segments a). reflexivity.
Defined.

(** X16.  What a tap in Draw mode leaves behind is never visible: the
    annotation is appended to the list, and rendering it draws no element
    at all. *)
Theorem tap_draws_nothing (s : App.State) (start : App.Env * Point)
  (finish : App.Env) :
  drawReady s = true ->
  answered (App.statusQuery finish) = true ->
  let s' := App.run s (gesture start [] finish) in
  exists a r,
    Analysis.annotations (App.screen s') =
      Analysis.annotations (App.screen s) ++ [a]
    /\ Render.renderAnnotation a = Returned r
    /\ Render.marks r = [].
Proof.
  intros Hready Hans s'. subst s'. rewrite run_gesture by assumption.
  exists (drawn finish [snd start]). eexists. repeat split.
Qed.

Lemma tap_draws_nothing_witness :
  let s := App.run App.initial
             [(loadedAt 1000 0, pickPrimary "clip.mp4");
              (loadedAt 1001 0, App.PressDrawing)] in
  let s' := App.run s
              (gesture (loadedAt 1002 5000, {| x := 10; y := 10 |}) []
                 (loadedAt 1003 5000)) in
  drawReady s = true
  /\ exists a r,
       Analysis.annotations (App.screen s') =
         Analysis.annotations (App.screen s) ++ [a]
       /\ Render.renderAnnotation a = Returned r
       /\ Render.marks r = [].
Proof.
  intros s s'. split; [reflexivity|].
  apply (tap_draws_nothing s (loadedAt 1002 5000, {| x := 10; y := 10 |})
           (loadedAt 1003 5000)); reflexivity.
Defined.

Lemma renderAll_anchored (l : list Annotation) :
  forallb anchored l = true -> exists rs, Render.renderAll l = Returned rs.
Proof.
  induction l as [|a l IH]; simpl; [eexists; reflexivity|].
  intro H. apply andb_prop in H. destruct H as [Ha Hl].
  destruct (IH Hl) as (rs & ->).
  unfold Render.renderAnnotation, anchored in *.
  destruct (type a), (points a), (text a) as [content|];
    try discriminate; try (eexists; reflexivity);
    destruct (JSString.truthy content); eexists; reflexivity.
Qed.

(** X17.  Rendering never throws in a reachable state: the overlay's view
    of the annotations inside the time window and of the draft in
    progress always evaluates to a list of elements. *)
Theorem reachable_view_renders (trace : list (App.Env * App.Event)) :
  let s := App.run App.initial trace in
  exists rendered,
    Render.view (Analysis.layerProps (App.screen s)) (App.currentDrawing s)
    = Returned rendered.
Proof.
  intro s.
  destruct (run_coherent trace App.initial initial_coherent)
    as (Hshaped & Hdraft & _).
  fold s in Hshaped, Hdraft.
  unfold Render.view. apply renderAll_anchored.
  rewrite forallb_app. apply andb_true_intro. split.
  - rewrite forallb_forall in *. intros a Ha.
    unfold visibleAnnotations in Ha. apply filter_In in Ha.
    apply shaped_anchored, Hshaped, Ha.
  - destruct (App.currentDrawing s) as [draft|]; [|reflexivity].
    simpl. unfold anchored. simpl.
    destruct Hdraft as [-> _]. reflexivity.
Qed.

(** ** Starting a drag *)

Lemma find_first_some (A : Type) (f : A -> outcome bool) (l : list A)
  (a : A) :
  find_first f l = Returned (Some a) -> In a l /\ f a = Returned true.
Proof.
  induction l as [|b l IH]; simpl; [discriminate|].
  destruct (f b) as [[|]|] eqn:Hb; try discriminate.
  - intro H. injection H as <-. split; [now left | exact Hb].
  - intro H. destruct (IH H). split; [now right | assumption].
Qed.

(** X18.  With no tool selected, the overlay with drag-to-move claims a
    touch only for a text annotation that is inside the time window and
    anchored within 30 pixels of the touch: it then records that
    annotation's id and the offset of the touch from the anchor.  Lines,
    circles and annotations outside the window are never grabbed, and a
    touch that grabs nothing leaves the component's state alone. *)
Theorem drag_starts_on_visible_text (props : DragLayer.Props)
  (st st' : DragLayer.State) (location : Point) (claimed : bool) :
  DragLayer.isZoomMode props = false ->
  DragLayer.isEraserMode props || DragLayer.isTextMode props
    || DragLayer.isDrawingMode props = false ->
  DragLayer.onStartShouldSetPanResponder props st location =
    Returned (st', claimed) ->
  if claimed
  then
    exists a anchor rest,
      In a (DragLayer.annotations props)
      /\ type a = AnnotationType.text
      /\ nearTime (timestamp a) (DragLayer.currentTime props) = true
      /\ points a = anchor :: rest
      /\ (distance (x anchor) (y anchor) (x location) (y location) <? 30)
         = true
      /\ DragLayer.draggedAnnotation st' = Some (id a)
      /\ DragLayer.dragOffset st' =
         {| x := x location - x anchor; y := y location - y anchor |}
  else st' = st.
Proof.
  intros Hz Htools. unfold DragLayer.onStartShouldSetPanResponder.
  rewrite Hz, Htools.
  destruct (find_first _ _) as [[a|]|] eqn:Hfind; try discriminate.
  - apply find_first_some in Hfind. destruct Hfind as [Hin Hhit].
    apply filter_In in Hin. destruct Hin as [Hin Hvis].
    apply andb_prop in Hvis. destruct Hvis as [Hnear Htype].
    unfold DragLayer.textHit in Hhit.
    destruct (points a) as [|anchor rest] eqn:Hpoints; [discriminate|].
    intro H. injection H as <- <-.
    exists a, anchor, rest. repeat split; try assumption.
    + destruct (type a); try discriminate; reflexivity.
    + injection Hhit as Hhit. exact Hhit.
  - intro H. injection H as <- <-. reflexivity.
Qed.

Lemma drag_starts_on_visible_text_witness :
  let label := {| id := JSString.lit "2000";
                  type := AnnotationType.text;
                  points := [{| x := 50; y := 50 |}]; timestamp := 1;
                  text := Some (JSString.lit "check elbow") |} in
  let props := {| DragLayer.currentTime := 1;
                  DragLayer.annotations := [label];
                  DragLayer.isDrawingMode := false;
                  DragLayer.isTextMode := false;
                  DragLayer.isEraserMode := false;
                  DragLayer.isZoomMode := false;
                  DragLayer.scale := 1 |} in
  let st' := {| DragLayer.currentDrawing := None;
                DragLayer.draggedAnnotation := Some (JSString.lit "2000");
                DragLayer.dragOffset := {| x := 5; y := 8 |};
                DragLayer.zoomStart := None |} in
  exists a anchor rest,
    In a [label]
    /\ type a = AnnotationType.text
    /\ nearTime (timestamp a) 1 = true
    /\ points a = anchor :: rest
    /\ (distance (x anchor) (y anchor) 55 58 <? 30) = true
    /\ DragLayer.draggedAnnotation st' = Some (id a)
    /\ DragLayer.dragOffset st' =
       {| x := 55 - x anchor; y := 58 - y anchor |}.
Proof.
  intros label props st'.
  apply (drag_starts_on_visible_text props DragLayer.initial st'
           {| x := 55; y := 58 |} true); vm_compute; reflexivity.
Defined.

(** ** Notes *)

(** X19.  Saving a note stores the text exactly as typed, blanks around
    it included, stamped 0 and with the clock reading as its id, then
    empties and hides the prompt; a note of blanks only is refused and
    the prompt stays as it is. *)
Theorem note_saved_as_typed (clock : N) (st : Notes.State) :
  (forallb JSString.isWhiteSpace (Notes.noteText st) = true ->
   Notes.save clock st = st)
  /\ (forallb JSString.isWhiteSpace (Notes.noteText st) = false ->
      Notes.save clock st =
      {| Notes.notes :=
           Notes.notes st ++
           [{| Notes.noteId := JSString.ofTimeValue clock;
               Notes.noteTimestamp := 0;
               Notes.noteBody := Notes.noteText st |}];
         Notes.noteText := []; Notes.showNoteInput := false |}).
Proof.
  unfold Notes.save. split; intro H.
  - now rewrite (trim_blank _ H).
  - now rewrite (trim_truthy _ H).
Qed.

Lemma note_saved_as_typed_witness :
  let st := {| Notes.notes := [];
               Notes.noteText := JSString.lit "  front foot ";
               Notes.showNoteInput := true |} in
  Notes.notes (Notes.save 1000 st) =
    [{| Notes.noteId := JSString.lit "1000"; Notes.noteTimestamp := 0;
        Notes.noteBody := JSString.lit "  front foot " |}].
Proof.
  intro st.
  rewrite (proj2 (note_saved_as_typed 1000 st) eq_refl). reflexivity.
Defined.

(** ** Ends of gestures *)

(** X20.  In the overlay with drag-to-move a drag ends at release: outside
    zoom mode, releasing clears the grabbed id and the offset, and a later
    pointer move with neither the zoom nor the pencil selected fires no
    callback and changes nothing. *)
Theorem drag_ends_at_release (props props' : DragLayer.Props)
  (st : DragLayer.State) (clock : N) (location : Point) (dx : float) :
  DragLayer.isZoomMode props = false ->
  let st' := fst (DragLayer.onPanResponderRelease props st clock) in
  DragLayer.draggedAnnotation st' = None
  /\ DragLayer.dragOffset st' = {| x := 0; y := 0 |}
  /\ (DragLayer.isZoomMode props' = false ->
      DragLayer.isDrawingMode props' = false ->
      DragLayer.onPanResponderMove props' st' location dx = (st', [])).
Proof.
  intros Hz st'. subst st'. unfold DragLayer.onPanResponderRelease.
  rewrite Hz.
  destruct (if DragLayer.isDrawingMode props
            then DragLayer.currentDrawing st else None);
    simpl; repeat split;
    intros Hz' Hd'; unfold DragLayer.onPanResponderMove;
    rewrite Hz', Hd'; reflexivity.
Qed.

Lemma drag_ends_at_release_witness :
  let props := {| DragLayer.currentTime := 1; DragLayer.annotations := [];
                  DragLayer.isDrawingMode := false;
                  DragLayer.isTextMode := false;
                  DragLayer.isEraserMode := false;
                  DragLayer.isZoomMode := false; DragLayer.scale := 1 |} in
  let st := {| DragLayer.currentDrawing := None;
               DragLayer.draggedAnnotation := Some (JSString.lit "2000");
               DragLayer.dragOffset := {| x := 5; y := 8 |};
               DragLayer.zoomStart := None |} in
  DragLayer.draggedAnnotation
    (fst (DragLayer.onPanResponderRelease props st 1000)) = None.
Proof.
  intros props st.
  apply (proj1 (drag_ends_at_release props props st 1000
                  {| x := 0; y := 0 |} 0 eq_refl)).
Defined.

(** X21.  A draft left over from an earlier gesture never leaks into the
    next drawing: with the pencil selected, a whole gesture ends in the
    same state whatever draft was pending when it began. *)
Theorem gesture_ignores_stale_draft (s : App.State)
  (start : App.Env * Point) (positions : list (App.Env * Point))
  (finish : App.Env) (stale : option Drawing) :
  drawReady s = true ->
  answered (App.statusQuery finish) = true ->
  App.run {| App.screen := App.screen s; App.currentDrawing := stale |}
    (gesture start positions finish) =
  App.run s (gesture start positions finish).
Proof.
  intros Hready Hans.
  rewrite (run_gesture s) by assumption.
  rewrite run_gesture; [reflexivity | exact Hready | exact Hans].
Qed.

Lemma gesture_ignores_stale_draft_witness :
  let s := App.run App.initial
             [(loadedAt 1000 0, pickPrimary "clip.mp4");
              (loadedAt 1001 0, App.PressDrawing)] in
  let stale := Some {| drawingType := AnnotationType.line;
                       drawingPoints := [{| x := 1; y := 1 |}] |} in
  let g := gesture (loadedAt 1002 5000, {| x := 10; y := 10 |})
             [(loadedAt 1003 5000, {| x := 20; y := 10 |})]
             (loadedAt 1004 5000) in
  App.run {| App.screen := App.screen s; App.currentDrawing := stale |} g =
  App.run s g.
Proof.
  intros s stale g.
  apply (gesture_ignores_stale_draft s
           (loadedAt 1002 5000, {| x := 10; y := 10 |})
           [(loadedAt 1003 5000, {| x := 20; y := 10 |})]
           (loadedAt 1004 5000) stale); reflexivity.
Defined.
